(** * Change Lint Orchestrator: a shallow embedding of [tools/lint.py]

    The script resolves a base revision, lists the files changed against
    it, sorts them into three groups and hands each group to an external
    checker.  The embedding keeps the script's structure: Python's string
    methods and [os.path] (in its POSIX flavour) are written out as
    functions on [string], the interpreter state the script touches
    (working directory, standard output, cpplint's error counter) is an
    explicit record threaded through a state-and-exception monad, and
    everything the script obtains from outside (command output, the file
    system, the cpplint library, [utils]) is a field of an environment. *)

From Stdlib Require Import String Ascii List Bool Arith ZArith Lia.
From Stdlib Require Import Permutation DecimalString.
Import ListNotations.
Local Open Scope list_scope.
Local Open Scope string_scope.

(** ** Python [str] methods *)

Module PyStr.

Definition LF : ascii := "010"%char.
Definition CR : ascii := "013"%char.

(** The characters [str.strip()] removes when called without argument. *)
Definition whitespace : list ascii :=
  [" "; "009"; "010"; "011"; "012"; "013"]%char.

Definition isspace (c : ascii) : bool := existsb (Ascii.eqb c) whitespace.

Fixpoint lstrip_by (drop : ascii -> bool) (s : string) : string :=
  match s with
  | EmptyString => EmptyString
  | String c rest => if drop c then lstrip_by drop rest else s
  end.

Fixpoint rstrip_by (drop : ascii -> bool) (s : string) : string :=
  match s with
  | EmptyString => EmptyString
  | String c rest =>
      match rstrip_by drop rest with
      | EmptyString => if drop c then EmptyString else String c EmptyString
      | kept => String c kept
      end
  end.

(** [s.strip()] *)
Definition strip (s : string) : string :=
  rstrip_by isspace (lstrip_by isspace s).

(** [s.rstrip(ch)] for a one-character argument *)
Definition rstrip_char (ch : ascii) (s : string) : string :=
  rstrip_by (Ascii.eqb ch) s.

(** [s.split(sep)] for a one-character separator: every occurrence
    splits, and the empty string yields one empty field. *)
Fixpoint split (sep : ascii) (s : string) : list string :=
  match s with
  | EmptyString => [EmptyString]
  | String c rest =>
      if Ascii.eqb c sep then EmptyString :: split sep rest
      else match split sep rest with
           | field :: fields => String c field :: fields
           | [] => [String c EmptyString]
           end
  end.

(** [s.split(sep, 1)]: only the first occurrence splits. *)
Fixpoint split1 (sep : ascii) (s : string) : list string :=
  match s with
  | EmptyString => [EmptyString]
  | String c rest =>
      if Ascii.eqb c sep then [EmptyString; rest]
      else match split1 sep rest with
           | field :: fields => String c field :: fields
           | [] => [String c EmptyString]
           end
  end.

(** [s.splitlines()]: lines end at LF, CR or CR LF; no empty last line. *)
Fixpoint splitlines (s : string) : list string :=
  match s with
  | EmptyString => []
  | String c rest =>
      if Ascii.eqb c LF then EmptyString :: splitlines rest
      else if Ascii.eqb c CR then
        match rest with
        | String c' rest' =>
            if Ascii.eqb c' LF then EmptyString :: splitlines rest'
            else EmptyString :: splitlines rest
        | EmptyString => [EmptyString]
        end
      else match splitlines rest with
           | line :: lines => String c line :: lines
           | [] => [String c EmptyString]
           end
  end.

Definition startswith (s pre : string) : bool := String.prefix pre s.

Definition endswith (s suf : string) : bool :=
  Nat.leb (String.length suf) (String.length s) &&
  String.eqb (substring (String.length s - String.length suf)
                        (String.length suf) s) suf.

(** [s[:n]] and [s[n:]] for a non-negative [n] *)
Definition upto (n : nat) (s : string) : string := substring 0 n s.
Definition from (n : nat) (s : string) : string :=
  substring n (String.length s - n) s.

Definition lower_char (c : ascii) : ascii :=
  let n := nat_of_ascii c in
  if Nat.leb 65 n && Nat.leb n 90 then ascii_of_nat (n + 32) else c.

Fixpoint lower (s : string) : string :=
  match s with
  | EmptyString => EmptyString
  | String c rest => String (lower_char c) (lower rest)
  end.

(** [s.rfind(ch)], with Python's [-1] for "not found" *)
Fixpoint rfind (ch : ascii) (s : string) : Z :=
  match s with
  | EmptyString => (-1)%Z
  | String c rest =>
      let r := rfind ch rest in
      if (0 <=? r)%Z then (r + 1)%Z
      else if Ascii.eqb c ch then 0%Z else (-1)%Z
  end.

(** [x in xs] on a list of strings *)
Definition mem (x : string) (xs : list string) : bool :=
  existsb (String.eqb x) xs.

(** [sep.join(xs)] *)
Fixpoint join (sep : string) (xs : list string) : string :=
  match xs with
  | [] => EmptyString
  | [x] => x
  | x :: rest => x ++ sep ++ join sep rest
  end.

(** ["%d" % n] for a non-negative [n] *)
Definition of_nat (n : nat) : string :=
  NilZero.string_of_uint (Nat.to_uint n).

Fixpoint all_char (ch : ascii) (s : string) : bool :=
  match s with
  | EmptyString => true
  | String c rest => Ascii.eqb c ch && all_char ch rest
  end.

End PyStr.

(** ** [os.path], POSIX flavour *)

Module posixpath.
Import PyStr.

(** The [while] loop of [splitext]: is there a character other than a
    dot among the [n] characters starting at [filenameIndex]? *)
Fixpoint has_stem (p : string) (filenameIndex n : nat) : bool :=
  match n with
  | O => false
  | S n' =>
      match String.get filenameIndex p with
      | Some c => if Ascii.eqb c "." then has_stem p (S filenameIndex) n'
                  else true
      | None => false
      end
  end.

Definition splitext (p : string) : string * string :=
  let sepIndex := rfind "/" p in
  let dotIndex := rfind "." p in
  if (sepIndex <? dotIndex)%Z then
    let filenameIndex := Z.to_nat (sepIndex + 1) in
    if has_stem p filenameIndex (Z.to_nat dotIndex - filenameIndex)
    then (upto (Z.to_nat dotIndex) p, from (Z.to_nat dotIndex) p)
    else (p, "")
  else (p, "").

Definition trim_head (head : string) : string :=
  if negb (String.eqb head "") && negb (all_char "/" head)
  then rstrip_char "/" head else head.

Definition split (p : string) : string * string :=
  let i := Z.to_nat (rfind "/" p + 1) in
  (trim_head (upto i p), from i p).

Definition dirname (p : string) : string :=
  let i := Z.to_nat (rfind "/" p + 1) in
  trim_head (upto i p).

Definition isabs (p : string) : bool := startswith p "/".

Definition join (a b : string) : string :=
  if startswith b "/" then b
  else if String.eqb a "" || endswith a "/" then a ++ b
  else a ++ "/" ++ b.

(** The component loop of [normpath]; [new_comps] is kept reversed. *)
Fixpoint norm_comps (initial_slashes : nat) (comps rev_new : list string)
  : list string :=
  match comps with
  | [] => rev rev_new
  | comp :: rest =>
      if String.eqb comp "" || String.eqb comp "." then
        norm_comps initial_slashes rest rev_new
      else if negb (String.eqb comp "..")
              || (Nat.eqb initial_slashes 0 && Nat.eqb (length rev_new) 0)
              || match rev_new with
                 | last :: _ => String.eqb last ".."
                 | [] => false
                 end
      then norm_comps initial_slashes rest (comp :: rev_new)
      else norm_comps initial_slashes rest (tl rev_new)
  end.

Definition normpath (path : string) : string :=
  if String.eqb path "" then "."
  else
    let initial_slashes :=
      if startswith path "/" then
        if startswith path "//" && negb (startswith path "///")
        then 2 else 1
      else 0 in
    let comps := norm_comps initial_slashes (PyStr.split "/" path) [] in
    let path' := PyStr.join "/" comps in
    let path' :=
      match initial_slashes with
      | 0 => path'
      | 1 => "/" ++ path'
      | _ => "//" ++ path'
      end in
    if String.eqb path' "" then "." else path'.

(** [abspath(path)], with the process's working directory explicit *)
Definition abspath (cwd path : string) : string :=
  normpath (if isabs path then path else join cwd path).

(** [basename(p)] *)
Definition basename (p : string) : string :=
  from (Z.to_nat (rfind "/" p + 1)) p.

End posixpath.

(** A compiled regular expression without metacharacters matches, with
    [match], exactly the strings that start with it. *)
Definition literal_regex_match (literal subject : string) : bool :=
  PyStr.startswith subject literal.


(** ** Process state, exceptions and the monad of the script *)

(** An exception object: its class and what [str(e)] gives.  Every
    exception of the embedding belongs to a class derived from
    [Exception]. *)
Record exn := mkExn { exn_class : string; exn_str : string }.

Inductive result (A : Type) : Type :=
| Ret (a : A)
| Raise (e : exn).
Arguments Ret {A} a.
Arguments Raise {A} e.

(** The arguments of a [cpplint.Error] call. *)
Record Diag := mkDiag {
  d_filename : string;
  d_linenum : nat;
  d_category : string;
  d_confidence : nat;
  d_message : string
}.

(** What the script writes, one constructor per writing statement. *)
Inductive event : Type :=
| BaseChosen (remote : string)
| SkipCommonDir
| CantFindCpplint
| IgnoredError (d : Diag)
| CppBanner
| EmptyChangeset
| IgnoringFile (filename : string)
| LintingFile (filename : string)
| SkippingFile (filename : string)
| CppErrors (n : nat)
| PyBanner
| JsBanner
| MissingFile (filename : string)
| Running (tool filename : string)
| CheckerOutput (output : string)
| ExceptionText (e : exn)
| ImportHint
| ToolErrors (tool : string) (n : nat)
| TotalErrors (n : nat).

Definition NL : string := String PyStr.LF "".

(** The text each statement writes ([print] adds the final newline). *)
Definition render (ev : event) : string :=
  match ev with
  | BaseChosen remote =>
      "Base is not specified, will use " ++ remote
      ++ " as comparasion base for linting" ++ NL
  | SkipCommonDir => "Skip common dir" ++ NL
  | CantFindCpplint =>
      "Can't find cpplint, please add your depot_tools to PATH or PYTHONPATH"
      ++ NL
  | IgnoredError d =>
      "Ignored Error:" ++ NL ++ "  " ++ d_filename d
      ++ "(" ++ PyStr.of_nat (d_linenum d) ++ "):  " ++ d_message d
      ++ "  [" ++ d_category d ++ "] [" ++ PyStr.of_nat (d_confidence d)
      ++ "]" ++ NL
  | CppBanner => "_____ do cpp lint" ++ NL
  | EmptyChangeset => "changeset is empty except python files" ++ NL
  | IgnoringFile f => "Ignoring file " ++ f ++ NL
  | LintingFile f => f ++ NL
  | SkippingFile f => "Skipping file " ++ f ++ NL
  | CppErrors n => "cpplint errors " ++ PyStr.of_nat n ++ NL ++ NL
  | PyBanner => "_____ do python lint" ++ NL
  | JsBanner => NL ++ "_____ do JavaScript lint" ++ NL
  | MissingFile f => "Skipping file " ++ f ++ ": File doesn't exist." ++ NL
  | Running tool f => tool ++ " " ++ f ++ NL
  | CheckerOutput output => output ++ NL
  | ExceptionText e => exn_str e ++ NL
  | ImportHint =>
      "You have error for python importing, please check your PYTHONPATH"
      ++ NL
  | ToolErrors tool n => tool ++ " errors " ++ PyStr.of_nat n ++ NL ++ NL
  | TotalErrors n => "The total errors found: " ++ PyStr.of_nat n ++ NL ++ NL
  end.

(** The part of the interpreter's state the script reads and writes. *)
Record Proc := mkProc {
  cwd : string;                (* os.getcwd() *)
  stdout : list event;
  stderr : list event;
  cpplint_errors : nat         (* cpplint._cpplint_state.error_count *)
}.

Definition M (A : Type) : Type := Proc -> result A * Proc.

Definition ret {A} (a : A) : M A := fun p => (Ret a, p).
Definition raise {A} (e : exn) : M A := fun p => (Raise e, p).
Definition bind {A B} (m : M A) (k : A -> M B) : M B :=
  fun p => match m p with
           | (Ret a, p') => k a p'
           | (Raise e, p') => (Raise e, p')
           end.

(** [try: body  except Exception, e: handler], for a body all of whose
    failures are of type [exn], that is of a class derived from
    [Exception].  A body that can also end in an exception outside
    [Exception] is handled by [try_except_Exception] below. *)
Definition try_except {A} (body : M A) (handler : exn -> M A) : M A :=
  fun p => match body p with
           | (Raise e, p') => handler e p'
           | done => done
           end.

Declare Scope py_scope.
Delimit Scope py_scope with py.
Notation "x <- m ;; k" := (bind m (fun x => k))
  (at level 61, m at next level, right associativity) : py_scope.
Notation "' pat <- m ;; k" := (bind m (fun x => match x with pat => k end))
  (at level 61, pat pattern, m at next level, right associativity) : py_scope.
Notation "m ;; k" := (bind m (fun _ => k))
  (at level 61, right associativity) : py_scope.
Local Open Scope py_scope.

(** [for x in xs: body], with the loop-carried variables as [s] *)
Fixpoint for_each {A S} (xs : list A) (body : A -> S -> M S) (s : S) : M S :=
  match xs with
  | [] => ret s
  | x :: rest => s' <- body x s ;; for_each rest body s'
  end.

Definition print (ev : event) : M unit :=
  fun p => (Ret tt, mkProc (cwd p) (stdout p ++ [ev]) (stderr p) (cpplint_errors p)).

Definition write_stderr (ev : event) : M unit :=
  fun p => (Ret tt, mkProc (cwd p) (stdout p) (stderr p ++ [ev]) (cpplint_errors p)).

Definition getcwd : M string := fun p => (Ret (cwd p), p).

Definition chdir (dir : string) : M unit :=
  fun p => (Ret tt, mkProc dir (stdout p) (stderr p) (cpplint_errors p)).

Definition get_error_count : M nat := fun p => (Ret (cpplint_errors p), p).

(** ** What the script takes from outside *)

Record Env := mkEnv {
  sys_platform : string;
  (* utils *)
  GitExe : string;
  GetCommandOutput : string -> list string -> result string;
      (* working directory, argv *)
  (* the file system: working directory, path *)
  path_exists : string -> string -> bool;
  (* optparse applied to sys.argv: options.base and the left-over args *)
  parse_args : option string * list string;
  (* import machinery: [import cpplint], then the three imports, told
     whether the depot tools were added to the search path *)
  import_cpplint : bool;
  import_lint_modules : bool -> bool;
  (* cpplint, gcl and re *)
  cpplint_Error : Diag -> M unit;
  cpplint_ParseArguments : list string -> M (list string);
  cpplint_ProcessFile : (Diag -> M unit) -> string -> M unit;
      (* the installed [cpplint.Error], filename *)
  GetCodeReviewSetting : string -> option string;
  DEFAULT_LINT_REGEX : string;
  DEFAULT_LINT_IGNORE_REGEX : string;
  re_match : string -> string -> bool      (* pattern, subject *)
}.

Definition PYTHON_EXTS : list string := [".py"].
Definition JS_EXTS : list string := [".js"].

Section Script.

Variable env : Env.

Definition run_command (argv : list string) : M string :=
  fun p => (GetCommandOutput env (cwd p) argv, p).

Definition os_path_exists (path : string) : M bool :=
  fun p => (Ret (path_exists env (cwd p) path), p).

Definition repo_is_dirty : M bool :=
  output <- run_command [GitExe env; "diff"; "HEAD"] ;;
  ret (negb (String.eqb (PyStr.strip output) "")).

Definition IndexError : exn :=
  mkExn "IndexError" "list index out of range".
Definition UnboundLocalError : exn :=
  mkExn "UnboundLocalError"
        "local variable 'remote' referenced before assignment".
Definition ImportError : exn := mkExn "ImportError" "No module named cpplint".

(** [xs[1]] *)
Definition item1 (xs : list string) : result string :=
  match nth_error xs 1 with
  | Some x => Ret x
  | None => Raise IndexError
  end.

(** [branch[1:].strip().split(' ', 1)[1].strip().split(' ', 1)[1].strip()] *)
Definition branch_detail (branch : string) : result string :=
  match item1 (PyStr.split1 " " (PyStr.strip (PyStr.from 1 branch))) with
  | Raise e => Raise e
  | Ret after_name =>
      match item1 (PyStr.split1 " " (PyStr.strip after_name)) with
      | Raise e => Raise e
      | Ret after_hash => Ret (PyStr.strip after_hash)
      end
  end.

(** The name between the brackets, up to the first colon. *)
Definition bracket_remote (detail : string) : string :=
  let remote := hd "" (PyStr.split1 "]" (PyStr.from 1 detail)) in
  PyStr.strip (hd "" (PyStr.split1 ":" remote)).

Definition names_branch (remote r_branch : string) : bool :=
  PyStr.startswith (PyStr.strip r_branch) ("remotes/" ++ remote)
  || PyStr.startswith (PyStr.strip r_branch) remote.

(** The loop over the branch listing.  [None] is "[remote] was never
    assigned": no line starts with a star. *)
Fixpoint scan_branches (branches todo : list string)
  : result (option string) :=
  match todo with
  | [] => Ret None
  | branch :: rest =>
      if negb (PyStr.startswith branch "*") then scan_branches branches rest
      else
        match branch_detail branch with
        | Raise e => Raise e
        | Ret detail =>
            if PyStr.startswith detail "[" then
              let remote := bracket_remote detail in
              let exists_ := filter (names_branch remote) branches in
              if Nat.eqb (length exists_) 0 then Ret (Some "")
              else Ret (Some remote)
            else Ret (Some "")
        end
  end.

Definition get_tracking_remote : M string :=
  output <- run_command [GitExe env; "branch"; "-vv"; "-a"] ;;
  let branches := PyStr.split PyStr.LF output in
  match scan_branches branches branches with
  | Raise e => raise e
  | Ret None => raise UnboundLocalError
  | Ret (Some remote) =>
      remote <- (if String.eqb remote "" then
                   dirty <- repo_is_dirty ;;
                   ret (if dirty : bool then "HEAD" else "HEAD~")
                 else ret remote) ;;
      print (BaseChosen remote) ;;
      ret remote
  end.

(** [changes], the stripped lines of the stripped diff output *)
Definition changes_of (output : string) : list string :=
  map PyStr.strip (PyStr.split PyStr.LF (PyStr.strip output)).

Definition in_common_dir (change : string) : bool :=
  literal_regex_match "common" (posixpath.dirname change).

Definition classify (change : string)
           (acc : list string * list string * list string)
  : M (list string * list string * list string) :=
  let '(pyfiles, jsfiles, others) := acc in
  let '(root, ext) := posixpath.splitext change in
  if in_common_dir change then
    print SkipCommonDir ;; ret acc
  else if PyStr.mem (PyStr.lower ext) PYTHON_EXTS then
    ret (pyfiles ++ [change], jsfiles, others)%list
  else if PyStr.mem (PyStr.lower ext) JS_EXTS then
    ret (pyfiles, jsfiles ++ [change], others)%list
  else
    ret (pyfiles, jsfiles, others ++ [change])%list.

Definition get_change_file_list (base : string)
  : M (list string * list string * list string) :=
  output <- run_command [GitExe env; "diff"; "--name-only"; base] ;;
  for_each (changes_of output) classify ([], [], []).

(** *** The style linter *)

Definition origin_error : Diag -> M unit := cpplint_Error env.

Definition MyError (d : Diag) : M unit :=
  if PyStr.endswith (d_filename d) "resource.h" then
    print (IgnoredError d)
  else if PyStr.endswith (d_filename d) "messages.h"
          && Nat.eqb (d_linenum d) 0
          && String.eqb (d_category d) "build/header_guard" then
    print (IgnoredError d)
  else
    origin_error d.

(** [setting or default] when [setting] is [None] or empty *)
Definition setting_or (setting : option string) (default : string) : string :=
  match setting with
  | None => default
  | Some s => if String.eqb s "" then default else s
  end.

Definition cpp_file (white_list black_list filename : string) (_ : unit)
  : M unit :=
  if re_match env white_list filename then
    if re_match env black_list filename then
      print (IgnoringFile filename)
    else
      print (LintingFile filename) ;;
      cpplint_ProcessFile env MyError filename
  else
    print (SkippingFile filename).

Definition do_cpp_lint (changeset args : list string) : M nat :=
  let depot_added := negb (import_cpplint env) in
  if negb (import_lint_modules env depot_added) then
    write_stderr CantFindCpplint ;; raise ImportError
  else
    print CppBanner ;;
    if Nat.eqb (length changeset) 0 then
      print EmptyChangeset ;; ret 0
    else
      filenames <- cpplint_ParseArguments env (args ++ changeset)%list ;;
      let white_list :=
        setting_or (GetCodeReviewSetting env "LINT_REGEX")
                   (DEFAULT_LINT_REGEX env) in
      let black_list :=
        setting_or (GetCodeReviewSetting env "LINT_IGNORE_REGEX")
                   (DEFAULT_LINT_IGNORE_REGEX env) in
      for_each filenames (cpp_file white_list black_list) tt ;;
      n <- get_error_count ;;
      print (CppErrors n) ;;
      get_error_count.

(** *** The two per-file checkers *)

Definition on_windows : bool := PyStr.startswith (sys_platform env) "win".

(** ['F0401:' in [error[:6] for error in str(e).splitlines()]] *)
Definition has_import_marker (e : exn) : bool :=
  PyStr.mem "F0401:" (map (PyStr.upto 6) (PyStr.splitlines (exn_str e))).

(** One turn of the loop of [do_py_lint]; the loop carries
    [_has_import_error] and [error_count]. *)
Definition py_file (pylint_cmd : list string) (pyfile : string)
           (vars : bool * nat) : M (bool * nat) :=
  let '(_has_import_error, error_count) := vars in
  found <- os_path_exists pyfile ;;
  if negb found then
    print (MissingFile pyfile) ;; ret vars
  else
    here <- getcwd ;;
    let '(py_dir, py_name) := posixpath.split (posixpath.abspath here pyfile) in
    previous_cwd <- getcwd ;;
    chdir py_dir ;;
    print (Running "pylint" pyfile) ;;
    vars' <- try_except
               (raw <- run_command (pylint_cmd ++ [py_name])%list ;;
                let output := PyStr.strip raw in
                if Nat.ltb 0 (String.length output) then
                  print (CheckerOutput output) ;; ret vars
                else
                  ret (_has_import_error, error_count + 1))
               (fun e =>
                  let flag :=
                    if negb _has_import_error && has_import_marker e
                    then true else _has_import_error in
                  print (ExceptionText e) ;;
                  ret (flag, error_count + 1)) ;;
    chdir previous_cwd ;;
    ret vars'.

Definition do_py_lint (changeset : list string) : M nat :=
  print PyBanner ;;
  let pylint_cmd := if on_windows then ["pylint.bat"] else ["pylint"] in
  '(_has_import_error, error_count) <-
      for_each changeset (py_file pylint_cmd) (false, 0) ;;
  (if _has_import_error : bool then print ImportHint else ret tt) ;;
  print (ToolErrors "pylint" error_count) ;;
  ret error_count.

Definition js_args : list string :=
  ["--strict"; "--nojsdoc"; "--max_line_length"; "100"; "--unix_mode"].

(** One turn of the loop of [do_js_lint]; the loop carries
    [error_count]. *)
Definition js_file (jslint_cmd : list string) (jsfile : string)
           (error_count : nat) : M nat :=
  found <- os_path_exists jsfile ;;
  if negb found then
    print (MissingFile jsfile) ;; ret error_count
  else
    let args := js_args in
    here <- getcwd ;;
    let '(js_dir, js_name) := posixpath.split (posixpath.abspath here jsfile) in
    previous_cwd <- getcwd ;;
    chdir js_dir ;;
    print (Running "jslint" jsfile) ;;
    let args := (args ++ [js_name])%list in
    error_count' <- try_except
               (raw <- run_command (jslint_cmd ++ args)%list ;;
                let output := PyStr.strip raw in
                if Nat.ltb 0 (String.length output) then
                  print (CheckerOutput output) ;; ret error_count
                else
                  ret (error_count + 1))
               (fun e =>
                  print (ExceptionText e) ;;
                  ret (error_count + 1)) ;;
    chdir previous_cwd ;;
    ret error_count'.

Definition do_js_lint (changeset : list string) : M nat :=
  print JsBanner ;;
  let jslint_cmd := if on_windows then ["gjslint.exe"] else ["gjslint"] in
  error_count <- for_each changeset (js_file jslint_cmd) 0 ;;
  print (ToolErrors "jslint" error_count) ;;
  ret error_count.

(** *** The orchestrator *)

Definition do_lint (base : option string) (args : list string) : M nat :=
  base <- match base with
          | None => get_tracking_remote
          | Some given => ret given
          end ;;
  '(changes_py, changes_js, changes_others) <- get_change_file_list base ;;
  let total_erros := 0 in
  n_cpp <- do_cpp_lint changes_others args ;;
  let total_erros := total_erros + n_cpp in
  n_py <- do_py_lint changes_py ;;
  let total_erros := total_erros + n_py in
  n_js <- do_js_lint changes_js ;;
  let total_erros := total_erros + n_js in
  print (TotalErrors total_erros) ;;
  ret total_erros.

(** [main] ends in [sys.exit(do_lint(...))]; its value here is the
    argument handed to [sys.exit].  What the parent process then sees is
    [process_status] below. *)
Definition main : M nat :=
  let '(base, args) := parse_args env in
  do_lint base args.

End Script.

(** ** Classification as a function of the path *)

Inductive category : Type := Skipped | Python | Script | Other.

Definition category_eqb (a b : category) : bool :=
  match a, b with
  | Skipped, Skipped | Python, Python | Script, Script | Other, Other => true
  | _, _ => false
  end.

Definition category_of (change : string) : category :=
  let ext := PyStr.lower (snd (posixpath.splitext change)) in
  if in_common_dir change then Skipped
  else if PyStr.mem ext PYTHON_EXTS then Python
  else if PyStr.mem ext JS_EXTS then Script
  else Other.

Definition select (k : category) (changes : list string) : list string :=
  filter (fun c => category_eqb (category_of c) k) changes.

Definition announce_skips (changes : list string) : list event :=
  map (fun _ => SkipCommonDir) (filter in_common_dir changes).

Definition with_stdout (p : Proc) (out : list event) : Proc :=
  mkProc (cwd p) out (stderr p) (cpplint_errors p).

(** ** The per-file checkers, file by file *)

(** What the checker invocation for [file] yields when the dispatcher was
    entered in directory [here]: the command runs in the file's directory
    on the bare file name. *)
Definition invocation (env : Env) (cmd : list string) (here file : string)
  : result string :=
  let '(dir, name) := posixpath.split (posixpath.abspath here file) in
  GetCommandOutput env dir (cmd ++ [name])%list.

(** The file is on disk and its invocation printed only blanks or raised. *)
Definition counted (env : Env) (cmd : list string) (here file : string)
  : bool :=
  path_exists env here file &&
  match invocation env cmd here file with
  | Ret raw => String.eqb (PyStr.strip raw) ""
  | Raise _ => true
  end.

(** The file is on disk and its invocation raised with the marker. *)
Definition marked (env : Env) (cmd : list string) (here file : string)
  : bool :=
  path_exists env here file &&
  match invocation env cmd here file with
  | Ret _ => false
  | Raise e => has_import_marker e
  end.

(** What one turn of either loop prints. *)
Definition file_events (env : Env) (tool : string) (cmd : list string)
           (here file : string) : list event :=
  if path_exists env here file then
    Running tool file ::
    match invocation env cmd here file with
    | Ret raw => if String.eqb (PyStr.strip raw) "" then []
                 else [CheckerOutput (PyStr.strip raw)]
    | Raise e => [ExceptionText e]
    end
  else [MissingFile file].

Definition is_hint (ev : event) : bool :=
  match ev with ImportHint => true | _ => false end.

Definition pylint_cmd (env : Env) : list string :=
  if on_windows env then ["pylint.bat"] else ["pylint"].

Definition jslint_cmd (env : Env) : list string :=
  (if on_windows env then ["gjslint.exe"] else ["gjslint"]) ++ js_args.

(** ** The orchestrator *)

Definition resolve_base (env : Env) (base : option string) : M string :=
  match base with
  | None => get_tracking_remote env
  | Some given => ret given
  end.

(** The policy of claim C2 read literally, for one file of the changeset:
    the count goes up by one exactly when the checker's output is the
    empty text or the invocation raised, and any other output is printed
    and leaves the count alone. *)
Definition silence_policy_as_stated (env : Env) (file : string) (p : Proc)
  : Prop :=
  forall flag count flag' count' p',
    py_file env (pylint_cmd env) file (flag, count) p
      = (Ret (flag', count'), p') ->
    (count' = count + 1 <->
       invocation env (pylint_cmd env) (cwd p) file = Ret ""
       \/ exists e, invocation env (pylint_cmd env) (cwd p) file = Raise e)
    /\ (forall raw,
          invocation env (pylint_cmd env) (cwd p) file = Ret raw ->
          raw <> "" ->
          count' = count /\ In (CheckerOutput raw) (stdout p')).

(** ** The exit status of the process *)

(** What the parent process sees after [sys.exit(n)]: on POSIX the low
    eight bits of [n]. *)
Definition exit_status (n : nat) : nat := n mod 256.

(** The status of a process that runs [main]: the one of [sys.exit], or 1
    when an exception is not caught. *)
Definition process_status (env : Env) (p : Proc) : nat :=
  match fst (main env p) with
  | Ret n => exit_status n
  | Raise _ => 1
  end.

(** Claim C7 read literally, for one run: the process's exit status is
    the value [do_lint] returns, and a status of zero means that no error
    was found. *)
Definition exit_outcome_as_stated (env : Env) (p : Proc) : Prop :=
  forall base args total p',
    parse_args env = (base, args) ->
    do_lint env base args p = (Ret total, p') ->
    process_status env p = total
    /\ (process_status env p = 0 -> total = 0).

(** ** Exceptions outside [Exception]

    [KeyboardInterrupt] and [SystemExit] are not derived from
    [Exception], so [except Exception] lets them pass.  The two per-file
    dispatchers are embedded a second time with such an exception as a
    possible end of a checker invocation. *)

Inductive base_exception : Type := KeyboardInterrupt | SystemExit.

Inductive outcome (A : Type) : Type :=
| Finished (r : result A)
| Escaped (b : base_exception).
Arguments Finished {A} r.
Arguments Escaped {A} b.

Definition MI (A : Type) : Type := Proc -> outcome A * Proc.

Definition lift {A} (m : M A) : MI A :=
  fun p => (Finished (fst (m p)), snd (m p)).

Definition bind_i {A B} (m : MI A) (k : A -> MI B) : MI B :=
  fun p => match m p with
           | (Finished (Ret a), p') => k a p'
           | (Finished (Raise e), p') => (Finished (Raise e), p')
           | (Escaped b, p') => (Escaped b, p')
           end.

(** [try: body  except Exception, e: handler] *)
Definition try_except_Exception {A} (body : MI A) (handler : exn -> MI A)
  : MI A :=
  fun p => match body p with
           | (Finished (Raise e), p') => handler e p'
           | other => other
           end.

Declare Scope pyi_scope.
Delimit Scope pyi_scope with pyi.
Notation "x <- m ;; k" := (bind_i m (fun x => k))
  (at level 61, m at next level, right associativity) : pyi_scope.
Notation "' pat <- m ;; k" := (bind_i m (fun x => match x with pat => k end))
  (at level 61, pat pattern, m at next level, right associativity) : pyi_scope.
Notation "m ;; k" := (bind_i m (fun _ => k))
  (at level 61, right associativity) : pyi_scope.

Fixpoint for_each_i {A S} (xs : list A) (body : A -> S -> MI S) (s : S)
  : MI S :=
  match xs with
  | [] => lift (ret s)
  | x :: rest => bind_i (body x s) (for_each_i rest body)
  end.

(** The exception outside [Exception], if any, that ends the call of
    [GetCommandOutput] made in a directory with an argv. *)
Definition Signals : Type := string -> list string -> option base_exception.


(** The directory the invocation for [file] runs in. *)
Definition invocation_dir (here file : string) : string :=
  fst (posixpath.split (posixpath.abspath here file)).

Module Interruptible.

Definition run_command (signals : Signals) (env : Env) (argv : list string)
  : MI string :=
  fun p => match signals (cwd p) argv with
           | Some b => (Escaped b, p)
           | None => (Finished (GetCommandOutput env (cwd p) argv), p)
           end.

Definition py_file (signals : Signals) (env : Env)
           (pylint_cmd : list string) (pyfile : string) (vars : bool * nat)
  : MI (bool * nat) :=
  (let '(_has_import_error, error_count) := vars in
   found <- lift (os_path_exists env pyfile) ;;
   if negb found then
     lift (print (MissingFile pyfile)) ;; lift (ret vars)
   else
     here <- lift getcwd ;;
     let '(py_dir, py_name) := posixpath.split (posixpath.abspath here pyfile) in
     previous_cwd <- lift getcwd ;;
     lift (chdir py_dir) ;;
     lift (print (Running "pylint" pyfile)) ;;
     vars' <- try_except_Exception
                (raw <- run_command signals env (pylint_cmd ++ [py_name])%list ;;
                 let output := PyStr.strip raw in
                 if Nat.ltb 0 (String.length output) then
                   lift (print (CheckerOutput output)) ;; lift (ret vars)
                 else
                   lift (ret (_has_import_error, error_count + 1)))
                (fun e =>
                   let flag :=
                     if negb _has_import_error && has_import_marker e
                     then true else _has_import_error in
                   lift (print (ExceptionText e)) ;;
                   lift (ret (flag, error_count + 1))) ;;
     lift (chdir previous_cwd) ;;
     lift (ret vars'))%pyi.

Definition do_py_lint (signals : Signals) (env : Env)
           (changeset : list string) : MI nat :=
  (lift (print PyBanner) ;;
   let pylint_cmd := if on_windows env then ["pylint.bat"] else ["pylint"] in
   ' (_has_import_error, error_count) <-
       for_each_i changeset (py_file signals env pylint_cmd) (false, 0) ;;
   lift (if _has_import_error : bool then print ImportHint else ret tt) ;;
   lift (print (ToolErrors "pylint" error_count)) ;;
   lift (ret error_count))%pyi.

Definition js_file (signals : Signals) (env : Env)
           (jslint_cmd : list string) (jsfile : string) (error_count : nat)
  : MI nat :=
  (found <- lift (os_path_exists env jsfile) ;;
   if negb found then
     lift (print (MissingFile jsfile)) ;; lift (ret error_count)
   else
     let args := js_args in
     here <- lift getcwd ;;
     let '(js_dir, js_name) := posixpath.split (posixpath.abspath here jsfile) in
     previous_cwd <- lift getcwd ;;
     lift (chdir js_dir) ;;
     lift (print (Running "jslint" jsfile)) ;;
     let args := (args ++ [js_name])%list in
     error_count' <- try_except_Exception
                (raw <- run_command signals env (jslint_cmd ++ args)%list ;;
                 let output := PyStr.strip raw in
                 if Nat.ltb 0 (String.length output) then
                   lift (print (CheckerOutput output)) ;; lift (ret error_count)
                 else
                   lift (ret (error_count + 1)))
                (fun e =>
                   lift (print (ExceptionText e)) ;;
                   lift (ret (error_count + 1))) ;;
     lift (chdir previous_cwd) ;;
     lift (ret error_count'))%pyi.

Definition do_js_lint (signals : Signals) (env : Env)
           (changeset : list string) : MI nat :=
  (lift (print JsBanner) ;;
   let jslint_cmd := if on_windows env then ["gjslint.exe"] else ["gjslint"] in
   error_count <- for_each_i changeset (js_file signals env jslint_cmd) 0 ;;
   lift (print (ToolErrors "jslint" error_count)) ;;
   lift (ret error_count))%pyi.

End Interruptible.



(** ** A concrete environment

    A repository whose commands answer with fixed texts; the checkers and
    the file system are left open so that the examples can choose them. *)

Module Demo.

Definition lines (ls : list string) : string :=
  PyStr.join NL ls ++ NL.

Definition counting_error (d : Diag) : M unit :=
  fun p => (Ret tt, mkProc (cwd p) (stdout p) (stderr p)
                           (S (cpplint_errors p))).

(** One missing-guard report per header, one tab report per file. *)
Definition process_file (Error : Diag -> M unit) (filename : string)
  : M unit :=
  (if PyStr.endswith filename ".h"
   then Error (mkDiag filename 0 "build/header_guard" 5
                      "No #ifndef header guard found")
   else ret tt) ;;
  Error (mkDiag filename 7 "whitespace/tab" 1 "Tab found").

Definition commands (diff_output branch_listing head_diff : string)
           (checker : string -> list string -> result string)
           (dir : string) (argv : list string) : result string :=
  match argv with
  | [_; sub; flag; _] =>
      if String.eqb sub "diff" && String.eqb flag "--name-only"
      then Ret diff_output
      else if String.eqb sub "branch" then Ret branch_listing
      else checker dir argv
  | [_; sub; rev] =>
      if String.eqb sub "diff" && String.eqb rev "HEAD" then Ret head_diff
      else checker dir argv
  | _ => checker dir argv
  end.

Definition world (diff_output branch_listing head_diff : string)
           (checker : string -> list string -> result string)
           (on_disk : string -> string -> bool)
           (argv : option string * list string) : Env :=
  {| sys_platform := "linux2";
     GitExe := "git";
     GetCommandOutput := commands diff_output branch_listing head_diff checker;
     path_exists := on_disk;
     parse_args := argv;
     import_cpplint := true;
     import_lint_modules := fun _ => true;
     cpplint_Error := counting_error;
     cpplint_ParseArguments := fun args => ret args;
     cpplint_ProcessFile := process_file;
     GetCodeReviewSetting := fun _ => None;
     DEFAULT_LINT_REGEX := "allow";
     DEFAULT_LINT_IGNORE_REGEX := "deny";
     re_match := fun pattern _ => String.eqb pattern "allow" |}.

Definition start : Proc := mkProc "/repo" [] [] 0.

Definition talkative (dir : string) (argv : list string) : result string :=
  Ret (lines ["Your code has been rated at 10.00/10"]).

Definition on_disk_all (dir path : string) : bool := true.

Definition four_changes : string :=
  lines ["a.py"; "b.js"; "c.h"; "common/util.h"].

Definition untracked_branch : string :=
  lines ["* master 1a2b3c4 Fix the build"; "  topic  5d6e7f8 Work"].

(** The example run of the specification. *)
Definition example_world : Env :=
  world four_changes untracked_branch "" talkative on_disk_all (None, []).

(** A checker that prints a single newline. *)
Definition blank (dir : string) (argv : list string) : result string :=
  Ret NL.

(** A checker run that fails on an import, as [utils.GetCommandOutput]
    reports it. *)
Definition import_failure : exn :=
  mkExn "Exception"
        (lines ["pylint a.py: ************* Module a";
                "F0401:  3,0: Unable to import 'utils'"]).

Definition failing (dir : string) (argv : list string) : result string :=
  Raise import_failure.

Definition on_disk_but_gone (dir path : string) : bool :=
  negb (String.eqb path "gone.py").

Definition blank_world : Env :=
  world (lines ["a.py"]) untracked_branch "" blank on_disk_all (None, []).

Definition failing_world : Env :=
  world (lines ["a.py"; "b.py"]) untracked_branch "" failing on_disk_all
        (None, []).

Definition gone_world : Env :=
  world (lines ["gone.py"; "a.py"]) untracked_branch "" blank
        on_disk_but_gone (None, []).

Definition nothing_changed_world : Env :=
  world "" untracked_branch "" talkative on_disk_all (None, []).

(** A listing without an active line. *)
Definition no_branch_world : Env :=
  world four_changes (lines ["  master 1a2b3c4 Fix the build"]) "" talkative
        on_disk_all (None, []).

(** An active line that stops after the branch name. *)
Definition short_line_world : Env :=
  world four_changes (lines ["* master"]) "" talkative on_disk_all (None, []).

Definition tracked_listing : string :=
  lines ["  topic  5d6e7f8 Work";
         "* master 1a2b3c4 [origin/master: ahead 1] Fix";
         "  remotes/origin/master 0a1b2c3 Older"].

Definition tracked_world : Env :=
  world four_changes tracked_listing "" talkative on_disk_all (None, []).

(** The example repository on a machine without cpplint. *)
Definition no_cpplint_world : Env :=
  {| sys_platform := sys_platform example_world;
     GitExe := GitExe example_world;
     GetCommandOutput := GetCommandOutput example_world;
     path_exists := path_exists example_world;
     parse_args := parse_args example_world;
     import_cpplint := false;
     import_lint_modules := fun _ => false;
     cpplint_Error := cpplint_Error example_world;
     cpplint_ParseArguments := cpplint_ParseArguments example_world;
     cpplint_ProcessFile := cpplint_ProcessFile example_world;
     GetCodeReviewSetting := GetCodeReviewSetting example_world;
     DEFAULT_LINT_REGEX := DEFAULT_LINT_REGEX example_world;
     DEFAULT_LINT_IGNORE_REGEX := DEFAULT_LINT_IGNORE_REGEX example_world;
     re_match := re_match example_world |}.

(** The example repository with a lint configuration that allows no file. *)
Definition nothing_allowed_world : Env :=
  {| sys_platform := sys_platform example_world;
     GitExe := GitExe example_world;
     GetCommandOutput := GetCommandOutput example_world;
     path_exists := path_exists example_world;
     parse_args := parse_args example_world;
     import_cpplint := true;
     import_lint_modules := fun _ => true;
     cpplint_Error := cpplint_Error example_world;
     cpplint_ParseArguments := cpplint_ParseArguments example_world;
     cpplint_ProcessFile := cpplint_ProcessFile example_world;
     GetCodeReviewSetting := GetCodeReviewSetting example_world;
     DEFAULT_LINT_REGEX := DEFAULT_LINT_REGEX example_world;
     DEFAULT_LINT_IGNORE_REGEX := DEFAULT_LINT_IGNORE_REGEX example_world;
     re_match := fun _ _ => false |}.

(** A diff that prints only blanks. *)
Definition blank_diff_world : Env :=
  world (" " ++ NL ++ NL) untracked_branch "" talkative on_disk_all (None, []).

(** A repository in which every git command fails, and a run that names
    its base. *)
Definition git_failure : exn :=
  mkExn "Exception" "git diff --name-only nope: fatal: bad revision 'nope'".

Definition bad_base_world : Env :=
  {| sys_platform := sys_platform example_world;
     GitExe := GitExe example_world;
     GetCommandOutput := fun _ _ => Raise git_failure;
     path_exists := path_exists example_world;
     parse_args := (Some "nope", []);
     import_cpplint := true;
     import_lint_modules := fun _ => true;
     cpplint_Error := cpplint_Error example_world;
     cpplint_ParseArguments := cpplint_ParseArguments example_world;
     cpplint_ProcessFile := cpplint_ProcessFile example_world;
     GetCodeReviewSetting := GetCodeReviewSetting example_world;
     DEFAULT_LINT_REGEX := DEFAULT_LINT_REGEX example_world;
     DEFAULT_LINT_IGNORE_REGEX := DEFAULT_LINT_IGNORE_REGEX example_world;
     re_match := re_match example_world |}.


(** The user presses Ctrl-C while any checker runs. *)
Definition ctrl_c : Signals := fun _ _ => Some KeyboardInterrupt.

(** A cpplint that reports a tab on each of the first 256 lines. *)
Definition noisy_process_file (Error : Diag -> M unit) (filename : string)
  : M unit :=
  for_each (seq 1 256)
           (fun line _ => Error (mkDiag filename line "whitespace/tab" 1
                                        "Tab found")) tt.

Definition noisy_world : Env :=
  {| sys_platform := sys_platform example_world;
     GitExe := GitExe example_world;
     GetCommandOutput := GetCommandOutput example_world;
     path_exists := path_exists example_world;
     parse_args := parse_args example_world;
     import_cpplint := true;
     import_lint_modules := fun _ => true;
     cpplint_Error := cpplint_Error example_world;
     cpplint_ParseArguments := cpplint_ParseArguments example_world;
     cpplint_ProcessFile := noisy_process_file;
     GetCodeReviewSetting := GetCodeReviewSetting example_world;
     DEFAULT_LINT_REGEX := DEFAULT_LINT_REGEX example_world;
     DEFAULT_LINT_IGNORE_REGEX := DEFAULT_LINT_IGNORE_REGEX example_world;
     re_match := re_match example_world |}.

(** A checker that answers only when run in [/repo/sub] on [a.py]. *)
Definition picky (dir : string) (argv : list string) : result string :=
  if String.eqb dir "/repo/sub"
     && String.eqb (PyStr.join " " argv) "pylint a.py"
  then talkative dir argv
  else Raise (mkExn "Exception" "pylint: No such file").

Definition picky_world : Env :=
  world four_changes untracked_branch "" picky on_disk_all (None, []).

End Demo.

(** The line [do_cpp_lint] prints for a file name it does not process. *)
Definition filter_line (env : Env) (white_list filename : string) : event :=
  if re_match env white_list filename then IgnoringFile filename
  else SkippingFile filename.

(** ** The search for the depot tools *)

Definition AttributeError : exn :=
  mkExn "AttributeError" "'NoneType' object has no attribute 'split'".

(** The loop of [find_depot_tools_in_path]. *)
Fixpoint first_depot_tools (paths : list string) : option string :=
  match paths with
  | [] => None
  | path :: rest =>
      if String.eqb (posixpath.basename path) "depot_tools" then Some path
      else first_depot_tools rest
  end.

(** [find_depot_tools_in_path()], given what [os.getenv('PATH')] returns;
    [os.path.pathsep] is the colon. *)
Definition find_depot_tools_in_path (PATH : option string)
  : result (option string) :=
  match PATH with
  | None => Raise AttributeError
  | Some value => Ret (first_depot_tools (PyStr.split ":" value))
  end.

(** * Checks on concrete inputs *)

Example strip_ex : PyStr.strip (" a b" ++ String PyStr.LF "") = "a b".
Proof. reflexivity. Qed.
Example split_ex : PyStr.split "/" "a//b/" = ["a"; ""; "b"; ""].
Proof. reflexivity. Qed.
Example split1_ex : PyStr.split1 " " "a  b c" = ["a"; " b c"].
Proof. reflexivity. Qed.
Example splitext_ex1 : posixpath.splitext "a/b.c/d.tar.GZ" = ("a/b.c/d.tar", ".GZ").
Proof. reflexivity. Qed.
Example splitext_ex2 : posixpath.splitext "a/.bashrc" = ("a/.bashrc", "").
Proof. reflexivity. Qed.
Example splitext_ex3 : posixpath.splitext "a.b/c" = ("a.b/c", "").
Proof. reflexivity. Qed.
Example dirname_ex1 : posixpath.dirname "common/util.h" = "common".
Proof. reflexivity. Qed.
Example dirname_ex2 : posixpath.dirname "//x" = "//".
Proof. reflexivity. Qed.
Example dirname_ex3 : posixpath.dirname "a//b" = "a".
Proof. reflexivity. Qed.
Example abspath_ex1 : posixpath.abspath "/r/w" "../t/./x.py" = "/r/t/x.py".
Proof. reflexivity. Qed.
Example abspath_ex2 : posixpath.abspath "/r/w" "" = "/r/w".
Proof. reflexivity. Qed.
Example split_path_ex : posixpath.split "/r/t/x.py" = ("/r/t", "x.py").
Proof. reflexivity. Qed.
Example lower_ex : PyStr.lower ".Py" = ".py".
Proof. reflexivity. Qed.
Example splitlines_ex :
  PyStr.splitlines ("a" ++ String PyStr.CR (String PyStr.LF ("b" ++ String PyStr.LF "")))
  = ["a"; "b"].
Proof. reflexivity. Qed.
Example of_nat_ex : PyStr.of_nat 0 = "0" /\ PyStr.of_nat 120 = "120".
Proof. split; reflexivity. Qed.
Example endswith_ex : PyStr.endswith "a/resource.h" "resource.h" = true
                      /\ PyStr.endswith "h" "resource.h" = false.
Proof. split; reflexivity. Qed.

Example common_is_anchored :
  in_common_dir "common/util.h" = true
  /\ in_common_dir "commonplace/x.h" = true
  /\ in_common_dir "src/common/util.h" = false
  /\ in_common_dir "common.h" = false.
Proof. repeat split. Qed.

Example category_examples :
  map category_of ["a.PY"; "dir.js/b"; "c.js"; ".py"; "common/d.py"; ""]
  = [Python; Other; Script; Other; Skipped; Other].
Proof. reflexivity. Qed.

Example branch_detail_ex :
  branch_detail "* master   1a2b3c4 [origin/master: ahead 1] Fix the build"
  = Ret "[origin/master: ahead 1] Fix the build"
  /\ bracket_remote "[origin/master: ahead 1] Fix the build" = "origin/master"
  /\ branch_detail "* master" = Raise IndexError.
Proof. repeat split. Qed.

Example tracked_base :
  fst (get_tracking_remote
         (Demo.world Demo.four_changes
            (Demo.lines ["  topic  5d6e7f8 Work";
                         "* master 1a2b3c4 [origin/master: ahead 1] Fix";
                         "  remotes/origin/master 0a1b2c3 Older"])
            "" Demo.talkative Demo.on_disk_all (None, []))
         Demo.start)
  = Ret "origin/master".
Proof. reflexivity. Qed.

Example unconfirmed_tracking_dirty_base :
  fst (get_tracking_remote
         (Demo.world Demo.four_changes
            (Demo.lines ["* master 1a2b3c4 [WIP] Fix"; "  topic  5d6e7f8 Work"])
            (Demo.lines ["diff --git a/x b/x"])
            Demo.talkative Demo.on_disk_all (None, []))
         Demo.start)
  = Ret "HEAD".
Proof. reflexivity. Qed.

Example no_active_branch :
  fst (get_tracking_remote
         (Demo.world Demo.four_changes "" "" Demo.talkative Demo.on_disk_all
                     (None, []))
         Demo.start)
  = Raise UnboundLocalError.
Proof. reflexivity. Qed.

Example demo_classification :
  fst (get_change_file_list Demo.example_world "HEAD~" Demo.start)
  = Ret (["a.py"], ["b.js"], ["c.h"]).
Proof. reflexivity. Qed.

Example demo_base :
  fst (get_tracking_remote Demo.example_world Demo.start) = Ret "HEAD~".
Proof. reflexivity. Qed.

Example demo_total :
  fst (main Demo.example_world Demo.start) = Ret 2.
Proof. reflexivity. Qed.

Example demo_output :
  stdout (snd (main Demo.example_world Demo.start)) =
  [ BaseChosen "HEAD~"; SkipCommonDir;
    CppBanner; LintingFile "c.h"; CppErrors 2;
    PyBanner; Running "pylint" "a.py";
    CheckerOutput "Your code has been rated at 10.00/10";
    ToolErrors "pylint" 0;
    JsBanner; Running "jslint" "b.js";
    CheckerOutput "Your code has been rated at 10.00/10";
    ToolErrors "jslint" 0;
    TotalErrors 2 ].
Proof. reflexivity. Qed.

(** * Properties *)

Lemma category_eqb_eq a b : category_eqb a b = true <-> a = b.
Proof. destruct a, b; simpl; split; intro H; congruence. Qed.

Lemma in_select k c changes :
  In c (select k changes) <-> In c changes /\ category_of c = k.
Proof.
  unfold select. rewrite filter_In, category_eqb_eq. tauto.
Qed.

Lemma select_cons k c changes :
  select k (c :: changes) =
  if category_eqb (category_of c) k then c :: select k changes
  else select k changes.
Proof. reflexivity. Qed.

(** The loop of [get_change_file_list] appends to each list the paths of
    its category, in order, and announces each skipped path. *)
Lemma classify_loop changes : forall pyfiles jsfiles others p,
  for_each changes classify (pyfiles, jsfiles, others) p =
  (Ret ((pyfiles ++ select Python changes)%list,
        (jsfiles ++ select Script changes)%list,
        (others ++ select Other changes)%list),
   with_stdout p (stdout p ++ announce_skips changes)).
Proof.
  induction changes as [|c changes IH]; intros pyfiles jsfiles others p.
  - simpl. unfold ret, with_stdout, announce_skips. simpl.
    rewrite !app_nil_r. destruct p; reflexivity.
  - cbn [for_each]. unfold bind at 1.
    rewrite !select_cons. unfold announce_skips. cbn [filter].
    unfold classify, category_of.
    destruct (posixpath.splitext c) as [root ext]. cbn [snd].
    destruct (in_common_dir c) eqn:Hc.
    + cbn [category_eqb map]. unfold bind at 1. unfold print at 1, ret at 1.
      rewrite IH. unfold with_stdout. cbn [cwd stdout stderr cpplint_errors].
      rewrite <- app_assoc. reflexivity.
    + destruct (PyStr.mem (PyStr.lower ext) PYTHON_EXTS) eqn:Hpy.
      * cbn [category_eqb]. unfold ret at 1. rewrite IH.
        rewrite <- app_assoc. reflexivity.
      * destruct (PyStr.mem (PyStr.lower ext) JS_EXTS) eqn:Hjs.
        -- cbn [category_eqb]. unfold ret at 1. rewrite IH.
           rewrite <- app_assoc. reflexivity.
        -- cbn [category_eqb]. unfold ret at 1. rewrite IH.
           rewrite <- app_assoc. reflexivity.
Qed.

Lemma get_change_file_list_runs env base p output :
  GetCommandOutput env (cwd p) [GitExe env; "diff"; "--name-only"; base]
    = Ret output ->
  get_change_file_list env base p =
  (Ret (select Python (changes_of output),
        select Script (changes_of output),
        select Other (changes_of output)),
   with_stdout p (stdout p ++ announce_skips (changes_of output))).
Proof.
  intro Hdiff. unfold get_change_file_list, bind, run_command.
  rewrite Hdiff. apply classify_loop.
Qed.

Lemma select_partition changes :
  Permutation (select Python changes ++ select Script changes
               ++ select Other changes)
              (filter (fun c => negb (in_common_dir c)) changes).
Proof.
  induction changes as [|c changes IH]; [constructor|].
  rewrite !select_cons. cbn [filter].
  assert (Hcat : in_common_dir c = true /\ category_of c = Skipped
                 \/ in_common_dir c = false /\ category_of c <> Skipped).
  { unfold category_of. destruct (in_common_dir c); [left; auto|right].
    split; [reflexivity|].
    destruct (PyStr.mem _ PYTHON_EXTS); [discriminate|].
    destruct (PyStr.mem _ JS_EXTS); discriminate. }
  destruct Hcat as [[-> ->]|[-> Hk]]; cbn [negb category_eqb]; [exact IH|].
  destruct (category_of c); cbn [category_eqb]; try congruence.
  - cbn [app]. constructor. exact IH.
  - apply Permutation_sym. eapply Permutation_trans;
      [|apply Permutation_middle]. constructor.
    apply Permutation_sym.
    replace (select Python changes ++ select Script changes ++ select Other changes)%list
      with (select Python changes ++ (select Script changes ++ select Other changes))%list
      by reflexivity.
    exact IH.
  - apply Permutation_sym.
    replace (select Python changes ++ select Script changes ++ c :: select Other changes)%list
      with ((select Python changes ++ select Script changes) ++ c :: select Other changes)%list
      by (rewrite <- app_assoc; reflexivity).
    eapply Permutation_trans; [|apply Permutation_middle]. constructor.
    rewrite <- app_assoc. apply Permutation_sym. exact IH.
Qed.

(** ** Change enumeration and classification *)

Lemma select_exclusive k1 k2 c changes :
  In c (select k1 changes) -> In c (select k2 changes) -> k1 = k2.
Proof.
  rewrite !in_select. intros [_ H1] [_ H2]. congruence.
Qed.

Lemma surviving_category c :
  in_common_dir c = false ->
  category_of c = Python \/ category_of c = Script \/ category_of c = Other.
Proof.
  intro H. unfold category_of. rewrite H.
  destruct (PyStr.mem _ PYTHON_EXTS); [auto|].
  destruct (PyStr.mem _ JS_EXTS); auto.
Qed.

Lemma skipped_category c :
  in_common_dir c = true -> category_of c = Skipped.
Proof. intro H. unfold category_of. rewrite H. reflexivity. Qed.

Lemma count_occ_filter_le (keep : string -> bool) c changes :
  count_occ string_dec (filter keep changes) c
  <= count_occ string_dec changes c.
Proof.
  induction changes as [|x changes IH]; [reflexivity|].
  cbn [filter]. destruct (keep x); cbn [count_occ];
    destruct (string_dec x c); lia.
Qed.

(** C1. Whenever the diff command answers, [get_change_file_list] returns
    three lists that are pairwise disjoint, that together are a
    rearrangement of the changed-file list without the paths skipped for
    their "common" directory (so no path occurs more often than in the
    input), that each keep the order of the diff, and every surviving
    path is in exactly one of them. *)
Theorem get_change_file_list_partitions env base p output :
  GetCommandOutput env (cwd p) [GitExe env; "diff"; "--name-only"; base]
    = Ret output ->
  exists pyfiles jsfiles others p',
    get_change_file_list env base p = (Ret (pyfiles, jsfiles, others), p')
    /\ let changes := changes_of output in
       let surviving := filter (fun c => negb (in_common_dir c)) changes in
       (forall c, ~ (In c pyfiles /\ In c jsfiles))
       /\ (forall c, ~ (In c pyfiles /\ In c others))
       /\ (forall c, ~ (In c jsfiles /\ In c others))
       /\ Permutation (pyfiles ++ jsfiles ++ others) surviving
       /\ (forall c, count_occ string_dec (pyfiles ++ jsfiles ++ others) c
                     = count_occ string_dec surviving c
                     /\ count_occ string_dec surviving c
                        <= count_occ string_dec changes c)
       /\ pyfiles = select Python surviving
       /\ jsfiles = select Script surviving
       /\ others = select Other surviving
       /\ (forall c, In c surviving ->
             (In c pyfiles /\ ~ In c jsfiles /\ ~ In c others)
             \/ (~ In c pyfiles /\ In c jsfiles /\ ~ In c others)
             \/ (~ In c pyfiles /\ ~ In c jsfiles /\ In c others)).
Proof.
  intro Hdiff. do 4 eexists. split.
  { apply get_change_file_list_runs. exact Hdiff. }
  cbv zeta. set (changes := changes_of output).
  assert (Hsub : forall k, k <> Skipped ->
            select k changes
            = select k (filter (fun c => negb (in_common_dir c)) changes)).
  { intros k Hk. unfold select. induction changes as [|x xs IH]; [reflexivity|].
    cbn [filter]. destruct (in_common_dir x) eqn:Hx; cbn [negb filter].
    - rewrite (skipped_category _ Hx).
      destruct k; cbn [category_eqb]; congruence.
    - destruct (category_eqb (category_of x) k); rewrite IH; reflexivity. }
  repeat split.
  - intros c [H1 H2]. pose proof (select_exclusive _ _ _ _ H1 H2). discriminate.
  - intros c [H1 H2]. pose proof (select_exclusive _ _ _ _ H1 H2). discriminate.
  - intros c [H1 H2]. pose proof (select_exclusive _ _ _ _ H1 H2). discriminate.
  - apply select_partition.
  - apply Permutation_count_occ. apply select_partition.
  - apply count_occ_filter_le.
  - apply Hsub. discriminate.
  - apply Hsub. discriminate.
  - apply Hsub. discriminate.
  - intros c Hc. apply filter_In in Hc. destruct Hc as [Hin Hkeep].
    apply negb_true_iff in Hkeep.
    rewrite !in_select.
    destruct (surviving_category c Hkeep) as [Hk|[Hk|Hk]]; rewrite Hk.
    + left. repeat split; auto; intros [_ ?]; discriminate.
    + right; left. repeat split; auto; intros [_ ?]; discriminate.
    + right; right. repeat split; auto; intros [_ ?]; discriminate.
Qed.

Lemma get_change_file_list_partitions_witness :
  GetCommandOutput Demo.example_world "/repo"
    ["git"; "diff"; "--name-only"; "HEAD~"] = Ret Demo.four_changes
  /\ exists pyfiles jsfiles others p',
       get_change_file_list Demo.example_world "HEAD~" Demo.start
         = (Ret (pyfiles, jsfiles, others), p')
       /\ Permutation (pyfiles ++ jsfiles ++ others) ["a.py"; "b.js"; "c.h"].
Proof.
  split; [reflexivity|].
  destruct (get_change_file_list_partitions Demo.example_world "HEAD~"
              Demo.start Demo.four_changes eq_refl)
    as (pyfiles & jsfiles & others & p' & Hrun & H).
  exists pyfiles, jsfiles, others, p'. split; [exact Hrun|].
  cbv zeta in H. destruct H as (_ & _ & _ & Hperm & _). exact Hperm.
Defined.

(** C4. Every changed path whose directory name matches the regular
    expression [common] (with [match], that is from its first character)
    is in none of the three returned lists, and the run prints one
    "Skip common dir" line for each such path and nothing else. *)
Theorem common_dir_paths_are_skipped env base p output :
  GetCommandOutput env (cwd p) [GitExe env; "diff"; "--name-only"; base]
    = Ret output ->
  exists pyfiles jsfiles others p',
    get_change_file_list env base p = (Ret (pyfiles, jsfiles, others), p')
    /\ (forall c, In c (changes_of output) ->
          literal_regex_match "common" (posixpath.dirname c) = true ->
          ~ In c pyfiles /\ ~ In c jsfiles /\ ~ In c others)
    /\ stdout p' =
       (stdout p ++
        map (fun _ => SkipCommonDir)
            (filter (fun c => literal_regex_match "common" (posixpath.dirname c))
                    (changes_of output)))%list.
Proof.
  intro Hdiff. do 4 eexists. split.
  { apply get_change_file_list_runs. exact Hdiff. }
  split; [|reflexivity].
  intros c _ Hc. rewrite !in_select.
  change (in_common_dir c = true) in Hc.
  rewrite (skipped_category c Hc).
  repeat split; intros [_ ?]; discriminate.
Qed.

Lemma common_dir_paths_are_skipped_witness :
  GetCommandOutput Demo.example_world "/repo"
    ["git"; "diff"; "--name-only"; "HEAD~"] = Ret Demo.four_changes
  /\ exists pyfiles jsfiles others p',
       get_change_file_list Demo.example_world "HEAD~" Demo.start
         = (Ret (pyfiles, jsfiles, others), p')
       /\ (~ In "common/util.h" pyfiles /\ ~ In "common/util.h" jsfiles
           /\ ~ In "common/util.h" others)
       /\ stdout p' = [SkipCommonDir].
Proof.
  split; [reflexivity|].
  destruct (common_dir_paths_are_skipped Demo.example_world "HEAD~"
              Demo.start Demo.four_changes eq_refl)
    as (pyfiles & jsfiles & others & p' & Hrun & Hout & Hsay).
  exists pyfiles, jsfiles, others, p'. split; [exact Hrun|]. split.
  - apply Hout; [|reflexivity]. vm_compute. tauto.
  - exact Hsay.
Defined.

(** C10. When the diff prints nothing, the changed-file list is the one
    empty path: [get_change_file_list] returns no scripting-language and
    no markup-script file and the single empty string among the others,
    so the style linter is given a changeset that is not empty and, its
    modules imported, goes on to [cpplint.ParseArguments] with it. *)
Theorem empty_diff_yields_empty_path env base args p :
  GetCommandOutput env (cwd p) [GitExe env; "diff"; "--name-only"; base]
    = Ret "" ->
  get_change_file_list env base p = (Ret ([], [], [""]), p)
  /\ (import_lint_modules env (negb (import_cpplint env)) = true ->
      forall q,
        do_cpp_lint env [""] args q =
        (print CppBanner ;;
         filenames <- cpplint_ParseArguments env (args ++ [""])%list ;;
         for_each filenames
           (cpp_file env
              (setting_or (GetCodeReviewSetting env "LINT_REGEX")
                          (DEFAULT_LINT_REGEX env))
              (setting_or (GetCodeReviewSetting env "LINT_IGNORE_REGEX")
                          (DEFAULT_LINT_IGNORE_REGEX env))) tt ;;
         n <- get_error_count ;;
         print (CppErrors n) ;;
         get_error_count) q).
Proof.
  intro Hdiff. split.
  - rewrite (get_change_file_list_runs env base p "" Hdiff).
    unfold with_stdout. cbn. rewrite app_nil_r. destruct p; reflexivity.
  - intros Himp q. unfold do_cpp_lint. rewrite Himp. reflexivity.
Qed.

Lemma empty_diff_yields_empty_path_witness :
  GetCommandOutput Demo.nothing_changed_world "/repo"
    ["git"; "diff"; "--name-only"; "HEAD~"] = Ret ""
  /\ get_change_file_list Demo.nothing_changed_world "HEAD~" Demo.start
     = (Ret ([], [], [""]), Demo.start).
Proof.
  split; [reflexivity|].
  apply (empty_diff_yields_empty_path Demo.nothing_changed_world
           "HEAD~" [] Demo.start eq_refl).
Defined.

Example nothing_changed_run :
  main Demo.nothing_changed_world Demo.start
  = (Ret 1,
     mkProc "/repo"
            [ BaseChosen "HEAD~"; CppBanner; LintingFile ""; CppErrors 1;
              PyBanner; ToolErrors "pylint" 0;
              JsBanner; ToolErrors "jslint" 0; TotalErrors 1 ]
            [] 1).
Proof. reflexivity. Qed.

(** ** Base resolution *)

Lemma scan_branches_skips all before active after :
  (forall b, In b before -> PyStr.startswith b "*" = false) ->
  PyStr.startswith active "*" = true ->
  scan_branches all (before ++ active :: after)
  = scan_branches all [active].
Proof.
  intros Hbefore Hactive. induction before as [|b before IH].
  - cbn [app scan_branches]. rewrite Hactive. reflexivity.
  - cbn [app scan_branches]. rewrite (Hbefore b (or_introl eq_refl)).
    cbn [negb]. rewrite IH.
    + cbn [scan_branches]. reflexivity.
    + intros b' Hb'. apply Hbefore. right. exact Hb'.
Qed.

Lemma filter_none {A} (keep : A -> bool) xs :
  (forall x, In x xs -> keep x = false) -> filter keep xs = [].
Proof.
  induction xs as [|x xs IH]; intro H; [reflexivity|].
  cbn [filter]. rewrite (H x (or_introl eq_refl)).
  apply IH. intros y Hy. apply H. right. exact Hy.
Qed.

(** C6. When the listing has an active branch whose line shows no
    tracking reference, or shows one that no listed branch confirms, then
    [get_tracking_remote] returns [HEAD] if [git diff HEAD] prints
    something and [HEAD~] if it prints nothing, and announces the choice. *)
Theorem get_tracking_remote_falls_back
        env p listing before active after detail head_diff :
  GetCommandOutput env (cwd p) [GitExe env; "branch"; "-vv"; "-a"]
    = Ret listing ->
  PyStr.split PyStr.LF listing = (before ++ active :: after)%list ->
  (forall b, In b before -> PyStr.startswith b "*" = false) ->
  PyStr.startswith active "*" = true ->
  branch_detail active = Ret detail ->
  (PyStr.startswith detail "[" = false
   \/ forall r, In r (PyStr.split PyStr.LF listing) ->
                names_branch (bracket_remote detail) r = false) ->
  GetCommandOutput env (cwd p) [GitExe env; "diff"; "HEAD"] = Ret head_diff ->
  let base := if String.eqb (PyStr.strip head_diff) "" then "HEAD~" else "HEAD" in
  get_tracking_remote env p
  = (Ret base, with_stdout p (stdout p ++ [BaseChosen base])).
Proof.
  intros Hlist Hsplit Hbefore Hactive Hdetail Hnone Hdiff base.
  unfold get_tracking_remote, bind at 1, run_command at 1.
  rewrite Hlist, Hsplit, (scan_branches_skips _ _ _ _ Hbefore Hactive).
  cbn [scan_branches]. rewrite Hactive. cbn [negb]. rewrite Hdetail.
  assert (Hscan :
    (if PyStr.startswith detail "["
     then if Nat.eqb
               (length (filter (names_branch (bracket_remote detail))
                               (before ++ active :: after))) 0
          then Ret (Some "") else Ret (Some (bracket_remote detail))
     else Ret (Some "")) = Ret (Some "")).
  { destruct Hnone as [Hno|Hno].
    - rewrite Hno. reflexivity.
    - destruct (PyStr.startswith detail "["); [|reflexivity].
      rewrite filter_none; [reflexivity|].
      rewrite <- Hsplit. exact Hno. }
  rewrite Hscan. cbn [String.eqb].
  unfold bind, repo_is_dirty, bind, run_command. rewrite Hdiff.
  unfold ret, print, with_stdout. subst base.
  destruct (String.eqb (PyStr.strip head_diff) ""); reflexivity.
Qed.

Lemma get_tracking_remote_falls_back_witness :
  PyStr.startswith "Fix the build" "[" = false
  /\ get_tracking_remote Demo.example_world Demo.start
     = (Ret "HEAD~", with_stdout Demo.start [BaseChosen "HEAD~"]).
Proof.
  split; [reflexivity|].
  apply (get_tracking_remote_falls_back Demo.example_world Demo.start
           Demo.untracked_branch []
           "* master 1a2b3c4 Fix the build"
           ["  topic  5d6e7f8 Work"; ""]
           "Fix the build" "").
  - reflexivity.
  - reflexivity.
  - intros b [].
  - reflexivity.
  - reflexivity.
  - left. reflexivity.
  - reflexivity.
Defined.

(** ** The per-file checkers *)

Lemma nonempty_ltb s :
  Nat.ltb 0 (String.length s) = negb (String.eqb s "").
Proof. destruct s; reflexivity. Qed.

Lemma with_stdout_twice p xs ys :
  with_stdout (with_stdout p (stdout p ++ xs))
              (stdout (with_stdout p (stdout p ++ xs)) ++ ys)
  = with_stdout p (stdout p ++ xs ++ ys).
Proof. unfold with_stdout. cbn. rewrite <- app_assoc. reflexivity. Qed.

Lemma with_stdout_nil p : with_stdout p (stdout p ++ []) = p.
Proof. unfold with_stdout. rewrite app_nil_r. destruct p; reflexivity. Qed.

(** One turn of the loop of [do_py_lint], in closed form. *)
Lemma py_file_turn env cmd file flag count p :
  py_file env cmd file (flag, count) p =
  (Ret (flag || marked env cmd (cwd p) file,
        count + (if counted env cmd (cwd p) file then 1 else 0)),
   with_stdout p (stdout p ++ file_events env "pylint" cmd (cwd p) file)).
Proof.
  unfold py_file, marked, counted, file_events, invocation.
  unfold bind at 1. unfold os_path_exists at 1.
  destruct (path_exists env (cwd p) file); cbn [negb andb].
  - unfold bind at 1. unfold getcwd at 1.
    destruct (posixpath.split (posixpath.abspath (cwd p) file)) as [dir name].
    unfold bind, getcwd, chdir, print, try_except, run_command, ret.
    cbn [cwd stdout stderr cpplint_errors].
    destruct (GetCommandOutput env dir (cmd ++ [name])) as [raw|e].
    + rewrite nonempty_ltb.
      destruct (String.eqb (PyStr.strip raw) ""); cbn [negb];
        unfold with_stdout; cbn [cwd stdout stderr cpplint_errors];
        rewrite ?orb_false_r, ?Nat.add_0_r, <- ?app_assoc; reflexivity.
    + unfold with_stdout; cbn [cwd stdout stderr cpplint_errors].
      rewrite <- app_assoc.
      destruct flag, (has_import_marker e); reflexivity.
  - unfold bind, print, ret, with_stdout.
    rewrite orb_false_r, Nat.add_0_r. reflexivity.
Qed.

(** One turn of the loop of [do_js_lint], in closed form. *)
Lemma js_file_turn env cmd file count p :
  js_file env cmd file count p =
  (Ret (count + (if counted env (cmd ++ js_args) (cwd p) file then 1 else 0)),
   with_stdout p (stdout p
                  ++ file_events env "jslint" (cmd ++ js_args) (cwd p) file)).
Proof.
  unfold js_file, counted, file_events, invocation.
  unfold bind at 1. unfold os_path_exists at 1.
  destruct (path_exists env (cwd p) file); cbn [negb andb].
  - unfold bind at 1. unfold getcwd at 1.
    destruct (posixpath.split (posixpath.abspath (cwd p) file)) as [dir name].
    unfold bind, getcwd, chdir, print, try_except, run_command, ret.
    cbn [cwd stdout stderr cpplint_errors].
    rewrite <- app_assoc.
    destruct (GetCommandOutput env dir (cmd ++ js_args ++ [name])) as [raw|e].
    + rewrite nonempty_ltb.
      destruct (String.eqb (PyStr.strip raw) ""); cbn [negb];
        unfold with_stdout; cbn [cwd stdout stderr cpplint_errors];
        rewrite ?Nat.add_0_r, <- ?app_assoc; reflexivity.
    + unfold with_stdout; cbn [cwd stdout stderr cpplint_errors].
      rewrite <- app_assoc. reflexivity.
  - unfold bind, print, ret, with_stdout.
    rewrite Nat.add_0_r. reflexivity.
Qed.

Lemma py_loop env cmd changeset : forall flag count p,
  for_each changeset (py_file env cmd) (flag, count) p =
  (Ret (flag || existsb (marked env cmd (cwd p)) changeset,
        count + length (filter (counted env cmd (cwd p)) changeset)),
   with_stdout p (stdout p
                  ++ flat_map (file_events env "pylint" cmd (cwd p)) changeset)).
Proof.
  induction changeset as [|file changeset IH]; intros flag count p.
  - cbn. rewrite orb_false_r, Nat.add_0_r, with_stdout_nil. reflexivity.
  - cbn [for_each]. unfold bind. rewrite py_file_turn, IH.
    cbn [cwd with_stdout existsb filter flat_map].
    rewrite with_stdout_twice, orb_assoc.
    destruct (counted env cmd (cwd p) file); cbn [length];
      rewrite ?Nat.add_0_r, <- ?Nat.add_assoc; reflexivity.
Qed.

Lemma js_loop env cmd changeset : forall count p,
  for_each changeset (js_file env cmd) count p =
  (Ret (count + length (filter (counted env (cmd ++ js_args) (cwd p)) changeset)),
   with_stdout p
     (stdout p
      ++ flat_map (file_events env "jslint" (cmd ++ js_args) (cwd p)) changeset)).
Proof.
  induction changeset as [|file changeset IH]; intros count p.
  - cbn. rewrite Nat.add_0_r, with_stdout_nil. reflexivity.
  - cbn [for_each]. unfold bind. rewrite js_file_turn, IH.
    cbn [cwd with_stdout filter flat_map].
    rewrite with_stdout_twice.
    destruct (counted env (cmd ++ js_args) (cwd p) file); cbn [length];
      rewrite ?Nat.add_0_r, <- ?Nat.add_assoc; reflexivity.
Qed.

(** The whole of [do_py_lint], in closed form. *)
Lemma do_py_lint_runs env changeset p :
  let n := length (filter (counted env (pylint_cmd env) (cwd p)) changeset) in
  do_py_lint env changeset p =
  (Ret n,
   with_stdout p
     (stdout p
      ++ PyBanner
         :: flat_map (file_events env "pylint" (pylint_cmd env) (cwd p)) changeset
      ++ (if existsb (marked env (pylint_cmd env) (cwd p)) changeset
          then [ImportHint] else [])
      ++ [ToolErrors "pylint" n])).
Proof.
  cbv zeta. unfold do_py_lint. fold (pylint_cmd env).
  unfold bind at 1. unfold print at 1. unfold bind at 1.
  rewrite py_loop. cbn [orb Nat.add cwd stdout].
  destruct (existsb (marked env (pylint_cmd env) (cwd p)) changeset);
    unfold bind, print, ret, with_stdout; cbn [cwd stdout stderr cpplint_errors];
    rewrite <- !app_assoc; reflexivity.
Qed.

(** The whole of [do_js_lint], in closed form. *)
Lemma do_js_lint_runs env changeset p :
  let n := length (filter (counted env (jslint_cmd env) (cwd p)) changeset) in
  do_js_lint env changeset p =
  (Ret n,
   with_stdout p
     (stdout p
      ++ JsBanner
         :: flat_map (file_events env "jslint" (jslint_cmd env) (cwd p)) changeset
      ++ [ToolErrors "jslint" n])).
Proof.
  cbv zeta. unfold do_js_lint, jslint_cmd.
  unfold bind at 1. unfold print at 1. unfold bind at 1.
  rewrite js_loop. cbn [Nat.add cwd stdout].
  unfold bind, print, ret, with_stdout; cbn [cwd stdout stderr cpplint_errors].
  rewrite <- !app_assoc. reflexivity.
Qed.

Lemma marked_iff env cmd here file :
  marked env cmd here file = true <->
  path_exists env here file = true
  /\ exists e, invocation env cmd here file = Raise e
               /\ has_import_marker e = true.
Proof.
  unfold marked. rewrite andb_true_iff.
  destruct (invocation env cmd here file) as [raw|e]; split.
  - intros [_ H]. discriminate.
  - intros [_ (e & H & _)]. discriminate.
  - intros [Hd Hm]. split; [exact Hd|]. exists e. auto.
  - intros [Hd (e' & He & Hm)]. inversion He; subst. auto.
Qed.

Lemma file_events_no_hint env tool cmd here changeset :
  filter is_hint (flat_map (file_events env tool cmd here) changeset) = [].
Proof.
  induction changeset as [|file changeset IH]; [reflexivity|].
  cbn [flat_map]. rewrite filter_app, IH, app_nil_r.
  unfold file_events. destruct (path_exists env here file); [|reflexivity].
  destruct (invocation env cmd here file) as [raw|e]; [|reflexivity].
  destruct (String.eqb (PyStr.strip raw) ""); reflexivity.
Qed.

(** C2, amended.  For a file of the changeset that is on disk, one turn of
    the loop of [do_py_lint] raises the count by one exactly when the
    checker's output is empty after [strip()] or the invocation raised,
    and otherwise leaves it alone; output that still has text after
    [strip()] is printed, stripped, right after the "pylint <file>" line
    and is not counted. *)
Theorem do_py_lint_counts_blank_or_raised env file flag count p :
  path_exists env (cwd p) file = true ->
  exists flag' count' p',
    py_file env (pylint_cmd env) file (flag, count) p
      = (Ret (flag', count'), p')
    /\ (count' = count + 1 <->
          (exists raw, invocation env (pylint_cmd env) (cwd p) file = Ret raw
                       /\ PyStr.strip raw = "")
          \/ exists e, invocation env (pylint_cmd env) (cwd p) file = Raise e)
    /\ (count' = count \/ count' = count + 1)
    /\ (forall raw,
          invocation env (pylint_cmd env) (cwd p) file = Ret raw ->
          PyStr.strip raw <> "" ->
          count' = count
          /\ stdout p' = (stdout p ++ [Running "pylint" file;
                                       CheckerOutput (PyStr.strip raw)])%list).
Proof.
  intro Hdisk. do 3 eexists. split; [apply py_file_turn|].
  unfold counted, file_events. rewrite Hdisk. cbn [andb].
  destruct (invocation env (pylint_cmd env) (cwd p) file) as [raw|e].
  - destruct (String.eqb_spec (PyStr.strip raw) "") as [Hblank|Htext].
    + split; [|split].
      * split; [|reflexivity]. intros _. left. exists raw. auto.
      * right. reflexivity.
      * intros raw' Hraw' Htext'. inversion Hraw'; subst. contradiction.
    + split; [|split].
      * split; [lia|].
        intros [(raw' & Hraw' & Hblank)|(e & He)]; [|discriminate].
        inversion Hraw'; subst. contradiction.
      * left. lia.
      * intros raw' Hraw' _. inversion Hraw'; subst.
        split; [lia|reflexivity].
  - split; [|split].
    + split; [|reflexivity]. intros _. right. exists e. reflexivity.
    + right. reflexivity.
    + intros raw Hraw. discriminate.
Qed.

Lemma do_py_lint_counts_blank_or_raised_witness :
  path_exists Demo.example_world "/repo" "a.py" = true
  /\ exists flag' count' p',
       py_file Demo.example_world ["pylint"] "a.py" (false, 0) Demo.start
         = (Ret (flag', count'), p')
       /\ count' = 0
       /\ stdout p' = [Running "pylint" "a.py";
                       CheckerOutput "Your code has been rated at 10.00/10"].
Proof.
  split; [reflexivity|].
  destruct (do_py_lint_counts_blank_or_raised Demo.example_world "a.py"
              false 0 Demo.start eq_refl)
    as (flag' & count' & p' & Hrun & _ & _ & Htext).
  exists flag', count', p'. split; [exact Hrun|].
  apply (Htext (Demo.lines ["Your code has been rated at 10.00/10"]) eq_refl).
  vm_compute. discriminate.
Defined.

(** C2 as stated fails: a checker that prints one newline has printed
    something and has not raised, yet the file is counted and nothing is
    printed for it. *)
Lemma blank_output_is_counted :
  ~ silence_policy_as_stated Demo.blank_world "a.py" Demo.start.
Proof.
  intro Hpolicy.
  destruct (Hpolicy false 0 false 1
              (with_stdout Demo.start [Running "pylint" "a.py"]) eq_refl)
    as [Hcount _].
  destruct (proj1 Hcount eq_refl) as [Hempty|[e Hraised]].
  - vm_compute in Hempty. discriminate.
  - vm_compute in Hraised. discriminate.
Qed.

Example blank_output_run :
  invocation Demo.blank_world ["pylint"] "/repo" "a.py" = Ret NL
  /\ py_file Demo.blank_world ["pylint"] "a.py" (false, 0) Demo.start
     = (Ret (false, 1), with_stdout Demo.start [Running "pylint" "a.py"]).
Proof. split; reflexivity. Qed.












Example interrupted_run :
  Interruptible.py_file Demo.ctrl_c Demo.example_world ["pylint"] "sub/a.py"
    (false, 0) Demo.start
  = (Escaped KeyboardInterrupt,
     mkProc "/repo/sub" [Running "pylint" "sub/a.py"] [] 0)
  /\ Interruptible.do_py_lint Demo.ctrl_c Demo.example_world
       ["sub/a.py"; "b.py"] Demo.start
     = (Escaped KeyboardInterrupt,
        mkProc "/repo/sub" [PyBanner; Running "pylint" "sub/a.py"] [] 0).
Proof. split; reflexivity. Qed.

(** C8. In a run of [do_py_lint] the import hint is printed once, just
    before the final count, when at least one processed file's invocation
    raised with a line starting [F0401:], however many did; and it is not
    printed when none did. *)
Theorem import_hint_is_printed_once env changeset p :
  exists n p' printed,
    do_py_lint env changeset p = (Ret n, p')
    /\ stdout p' = (stdout p ++ printed)%list
    /\ (forall failures : nat,
          length (filter (marked env (pylint_cmd env) (cwd p)) changeset)
            = S failures ->
          length (filter is_hint printed) = 1
          /\ exists per_file,
               printed = (per_file ++ [ImportHint; ToolErrors "pylint" n])%list
               /\ filter is_hint per_file = [])
    /\ (filter (marked env (pylint_cmd env) (cwd p)) changeset = [] ->
        filter is_hint printed = []).
Proof.
  pose proof (do_py_lint_runs env changeset p) as Hrun. cbv zeta in Hrun.
  do 3 eexists. split; [exact Hrun|]. split; [reflexivity|].
  assert (Hex : forall xs (keep : string -> bool),
            existsb keep xs = negb (Nat.eqb (length (filter keep xs)) 0)).
  { intros xs keep. induction xs as [|x xs IH]; [reflexivity|].
    cbn [existsb filter]. destruct (keep x); [reflexivity|exact IH]. }
  rewrite Hex. split.
  - intros failures Hn. rewrite Hn. cbn [Nat.eqb negb].
    split.
    + cbn [filter is_hint]. rewrite filter_app, file_events_no_hint.
      reflexivity.
    + exists (PyBanner :: flat_map (file_events env "pylint" (pylint_cmd env) (cwd p))
                          changeset).
      split; [reflexivity|].
      cbn [filter is_hint]. apply file_events_no_hint.
  - intros Hnone. rewrite Hnone. cbn [length Nat.eqb negb].
    cbn [filter is_hint]. rewrite filter_app, file_events_no_hint.
    reflexivity.
Qed.

Lemma import_hint_is_printed_once_witness :
  length (filter (marked Demo.failing_world ["pylint"] "/repo")
                 ["a.py"; "b.py"]) = 2
  /\ exists n p' printed,
       do_py_lint Demo.failing_world ["a.py"; "b.py"] Demo.start = (Ret n, p')
       /\ stdout p' = printed
       /\ length (filter is_hint printed) = 1.
Proof.
  split; [reflexivity|].
  destruct (import_hint_is_printed_once Demo.failing_world ["a.py"; "b.py"]
              Demo.start) as (n & p' & printed & Hrun & Hout & Hsome & _).
  exists n, p', printed. split; [exact Hrun|]. split; [exact Hout|].
  apply (Hsome 1). reflexivity.
Defined.

Example import_hint_run :
  do_py_lint Demo.failing_world ["a.py"; "b.py"] Demo.start
  = (Ret 2,
     with_stdout Demo.start
       [ PyBanner;
         Running "pylint" "a.py"; ExceptionText Demo.import_failure;
         Running "pylint" "b.py"; ExceptionText Demo.import_failure;
         ImportHint; ToolErrors "pylint" 2 ]).
Proof. reflexivity. Qed.

(** C9. A file of either changeset that is not on disk gets its
    "Skipping file" line and nothing else: the loop variables are
    unchanged, the loop goes on with the remaining files, and the count
    the dispatcher returns is the one it returns without that file. *)
Theorem missing_file_is_skipped env file p :
  path_exists env (cwd p) file = false ->
  let p' := with_stdout p (stdout p ++ [MissingFile file]) in
  (forall cmd vars, py_file env cmd file vars p = (Ret vars, p'))
  /\ (forall cmd count, js_file env cmd file count p = (Ret count, p'))
  /\ (forall cmd vars rest,
        for_each (file :: rest) (py_file env cmd) vars p
        = for_each rest (py_file env cmd) vars p')
  /\ (forall cmd count rest,
        for_each (file :: rest) (js_file env cmd) count p
        = for_each rest (js_file env cmd) count p')
  /\ (forall before after,
        fst (do_py_lint env (before ++ file :: after) p)
        = fst (do_py_lint env (before ++ after) p))
  /\ (forall before after,
        fst (do_js_lint env (before ++ file :: after) p)
        = fst (do_js_lint env (before ++ after) p)).
Proof.
  intros Hgone p'.
  assert (Hpy : forall cmd vars, py_file env cmd file vars p = (Ret vars, p')).
  { intros cmd [flag count]. rewrite py_file_turn.
    unfold marked, counted, file_events. rewrite Hgone. cbn [andb].
    rewrite orb_false_r, Nat.add_0_r. reflexivity. }
  assert (Hjs : forall cmd count, js_file env cmd file count p = (Ret count, p')).
  { intros cmd count. rewrite js_file_turn.
    unfold counted, file_events. rewrite Hgone. cbn [andb].
    rewrite Nat.add_0_r. reflexivity. }
  assert (Hcount : forall cmd before after,
            filter (counted env cmd (cwd p)) (before ++ file :: after)
            = filter (counted env cmd (cwd p)) (before ++ after)).
  { intros cmd before after. rewrite !filter_app. cbn [filter].
    unfold counted at 2. rewrite Hgone. reflexivity. }
  repeat split; auto.
  - intros cmd vars rest. cbn [for_each]. unfold bind. rewrite Hpy. reflexivity.
  - intros cmd count rest. cbn [for_each]. unfold bind. rewrite Hjs. reflexivity.
  - intros before after.
    pose proof (do_py_lint_runs env (before ++ file :: after) p) as H1.
    pose proof (do_py_lint_runs env (before ++ after) p) as H2.
    cbv zeta in H1, H2. rewrite H1, H2. cbn [fst]. rewrite Hcount. reflexivity.
  - intros before after.
    pose proof (do_js_lint_runs env (before ++ file :: after) p) as H1.
    pose proof (do_js_lint_runs env (before ++ after) p) as H2.
    cbv zeta in H1, H2. rewrite H1, H2. cbn [fst]. rewrite Hcount. reflexivity.
Qed.

Lemma missing_file_is_skipped_witness :
  path_exists Demo.gone_world "/repo" "gone.py" = false
  /\ py_file Demo.gone_world ["pylint"] "gone.py" (false, 0) Demo.start
     = (Ret (false, 0), with_stdout Demo.start [MissingFile "gone.py"])
  /\ fst (do_py_lint Demo.gone_world ["gone.py"; "a.py"] Demo.start)
     = fst (do_py_lint Demo.gone_world ["a.py"] Demo.start).
Proof.
  split; [reflexivity|].
  destruct (missing_file_is_skipped Demo.gone_world "gone.py" Demo.start
              eq_refl) as (Hpy & _ & _ & _ & Hcount & _).
  split.
  - apply (Hpy ["pylint"] (false, 0)).
  - apply (Hcount [] ["a.py"]).
Defined.

Example missing_file_run :
  do_py_lint Demo.gone_world ["gone.py"; "a.py"] Demo.start
  = (Ret 1,
     with_stdout Demo.start
       [ PyBanner; MissingFile "gone.py"; Running "pylint" "a.py";
         ToolErrors "pylint" 1 ]).
Proof. reflexivity. Qed.

(** ** The orchestrator *)


(** C7, amended.  Once the base is resolved, the changes are listed and
    the style linter has returned its count, the two per-file dispatchers
    return theirs, [do_lint] returns the sum of the three counts and
    [main] hands that sum to [sys.exit].  The exit status of the process
    is the sum modulo 256: below 256 errors it is the sum, and is zero
    exactly when all three counts are. *)
Theorem do_lint_returns_the_sum
        env base args p b p1 changes_py changes_js changes_others p2 n_cpp p3 :
  resolve_base env base p = (Ret b, p1) ->
  get_change_file_list env b p1
    = (Ret (changes_py, changes_js, changes_others), p2) ->
  do_cpp_lint env changes_others args p2 = (Ret n_cpp, p3) ->
  exists n_py p4 n_js p5,
    do_py_lint env changes_py p3 = (Ret n_py, p4)
    /\ do_js_lint env changes_js p4 = (Ret n_js, p5)
    /\ do_lint env base args p
       = (Ret (n_cpp + n_py + n_js),
          with_stdout p5 (stdout p5 ++ [TotalErrors (n_cpp + n_py + n_js)]))
    /\ (parse_args env = (base, args) ->
        main env p
        = (Ret (n_cpp + n_py + n_js),
           with_stdout p5 (stdout p5 ++ [TotalErrors (n_cpp + n_py + n_js)]))
        /\ process_status env p = (n_cpp + n_py + n_js) mod 256
        /\ (n_cpp + n_py + n_js < 256 ->
            process_status env p = n_cpp + n_py + n_js
            /\ (process_status env p = 0 <->
                n_cpp = 0 /\ n_py = 0 /\ n_js = 0)))
    /\ (n_cpp + n_py + n_js = 0 <-> n_cpp = 0 /\ n_py = 0 /\ n_js = 0).
Proof.
  intros Hbase Hchanges Hcpp.
  pose proof (do_py_lint_runs env changes_py p3) as Hpy. cbv zeta in Hpy.
  remember (length (filter (counted env (pylint_cmd env) (cwd p3)) changes_py))
    as n_py eqn:En_py.
  match type of Hpy with _ = (_, ?q) => set (p4 := q) in * end.
  pose proof (do_js_lint_runs env changes_js p4) as Hjs. cbv zeta in Hjs.
  remember (length (filter (counted env (jslint_cmd env) (cwd p4)) changes_js))
    as n_js eqn:En_js.
  match type of Hjs with _ = (_, ?q) => set (p5 := q) in * end.
  assert (Hlint : do_lint env base args p
                  = (Ret (n_cpp + n_py + n_js),
                     with_stdout p5 (stdout p5 ++ [TotalErrors (n_cpp + n_py + n_js)]))).
  { unfold do_lint. fold (resolve_base env base).
    unfold bind at 1. rewrite Hbase.
    unfold bind at 1. rewrite Hchanges.
    unfold bind at 1. rewrite Hcpp.
    unfold bind at 1. rewrite Hpy.
    unfold bind at 1. rewrite Hjs.
    reflexivity. }
  exists n_py, p4, n_js, p5.
  split; [exact Hpy|]. split; [exact Hjs|]. split; [exact Hlint|].
  split; [|lia].
  intro Hargs.
  assert (Hmain : main env p
                  = (Ret (n_cpp + n_py + n_js),
                     with_stdout p5 (stdout p5 ++ [TotalErrors (n_cpp + n_py + n_js)]))).
  { unfold main. rewrite Hargs. exact Hlint. }
  assert (Hstatus : process_status env p = (n_cpp + n_py + n_js) mod 256).
  { unfold process_status. rewrite Hmain. reflexivity. }
  split; [exact Hmain|]. split; [exact Hstatus|].
  intro Hsmall. rewrite Hstatus, (Nat.mod_small _ _ Hsmall).
  split; [reflexivity|lia].
Qed.

Lemma do_lint_returns_the_sum_witness :
  do_cpp_lint Demo.example_world ["c.h"] []
    (with_stdout Demo.start [BaseChosen "HEAD~"; SkipCommonDir])
  = (Ret 2,
     mkProc "/repo"
            [BaseChosen "HEAD~"; SkipCommonDir; CppBanner; LintingFile "c.h";
             CppErrors 2] [] 2)
  /\ exists n_py n_js p',
       do_lint Demo.example_world None [] Demo.start
         = (Ret (2 + n_py + n_js), p')
       /\ main Demo.example_world Demo.start = (Ret (2 + n_py + n_js), p')
       /\ process_status Demo.example_world Demo.start
          = (2 + n_py + n_js) mod 256.
Proof.
  split; [reflexivity|].
  destruct (do_lint_returns_the_sum Demo.example_world None [] Demo.start
              "HEAD~" (with_stdout Demo.start [BaseChosen "HEAD~"])
              ["a.py"] ["b.js"] ["c.h"]
              (with_stdout Demo.start [BaseChosen "HEAD~"; SkipCommonDir])
              2
              (mkProc "/repo"
                 [BaseChosen "HEAD~"; SkipCommonDir; CppBanner;
                  LintingFile "c.h"; CppErrors 2] [] 2)
              eq_refl eq_refl eq_refl)
    as (n_py & p4 & n_js & p5 & _ & _ & Hlint & Hmain & _).
  destruct (Hmain eq_refl) as (Hrun & Hstatus & _).
  eexists n_py, n_js, _. split; [exact Hlint|]. split; [exact Hrun|].
  exact Hstatus.
Defined.

Lemma noisy_run :
  exists p', do_lint Demo.noisy_world None [] Demo.start = (Ret 256, p').
Proof. eexists. vm_compute. reflexivity. Qed.

(** C7 as stated fails: a run that finds 256 errors returns 256 from
    [do_lint], and the process exits with status 0. *)
Lemma exit_status_wraps_at_256 :
  ~ exit_outcome_as_stated Demo.noisy_world Demo.start.
Proof.
  intro Hstated. destruct noisy_run as [p' Hrun].
  destruct (Hstated None [] 256 p' eq_refl Hrun) as [Hstatus _].
  vm_compute in Hstatus. discriminate.
Qed.

Example noisy_status :
  fst (main Demo.noisy_world Demo.start) = Ret 256
  /\ process_status Demo.noisy_world Demo.start = 0
  /\ process_status Demo.example_world Demo.start = 2
  /\ process_status Demo.bad_base_world Demo.start = 1.
Proof. repeat split; vm_compute; reflexivity. Qed.

(** ** The installed error handler *)

(** C5, the code at a failing input.  A tab report for a file named
    [resource.h] is written as an ignored error and never reaches
    cpplint's own handler, whatever that handler is; the same report for
    a file named [messages.h], whose branch does test the category, is
    handed on. *)
Theorem MyError_ignores_every_report_for_resource_h env p :
  let tab file := mkDiag file 12 "whitespace/tab" 1 "Tab found" in
  MyError env (tab "app/resource.h") p
    = (Ret tt, with_stdout p (stdout p ++ [IgnoredError (tab "app/resource.h")]))
  /\ MyError env (tab "app/messages.h") p
     = cpplint_Error env (tab "app/messages.h") p.
Proof. split; reflexivity. Qed.

Lemma MyError_resource_h env d p :
  PyStr.endswith (d_filename d) "resource.h" = true ->
  MyError env d p = (Ret tt, with_stdout p (stdout p ++ [IgnoredError d])).
Proof. intro H. unfold MyError. rewrite H. reflexivity. Qed.

Lemma MyError_messages_h env d p :
  PyStr.endswith (d_filename d) "resource.h" = false ->
  PyStr.endswith (d_filename d) "messages.h" = true ->
  MyError env d p =
  if Nat.eqb (d_linenum d) 0 && String.eqb (d_category d) "build/header_guard"
  then (Ret tt, with_stdout p (stdout p ++ [IgnoredError d]))
  else cpplint_Error env d p.
Proof.
  intros H1 H2. unfold MyError. rewrite H1, H2. cbn [andb].
  destruct (Nat.eqb (d_linenum d) 0 && String.eqb (d_category d) "build/header_guard");
    reflexivity.
Qed.

Lemma MyError_other_file env d p :
  PyStr.endswith (d_filename d) "resource.h" = false ->
  PyStr.endswith (d_filename d) "messages.h" = false ->
  MyError env d p = cpplint_Error env d p.
Proof. intros H1 H2. unfold MyError. rewrite H1, H2. reflexivity. Qed.

(** * Further properties of the script *)

(** ** [find_depot_tools_in_path] *)

Example find_depot_tools_ex :
  find_depot_tools_in_path (Some "/usr/bin:/opt/depot_tools:/x/depot_tools")
  = Ret (Some "/opt/depot_tools")
  /\ find_depot_tools_in_path (Some "/usr/bin:/opt/depot_tools/") = Ret None
  /\ find_depot_tools_in_path (Some "") = Ret None
  /\ find_depot_tools_in_path (Some "depot_tools") = Ret (Some "depot_tools")
  /\ find_depot_tools_in_path None = Raise AttributeError.
Proof. repeat split. Qed.

Lemma first_depot_tools_finds paths :
  match first_depot_tools paths with
  | Some found =>
      exists before after,
        paths = (before ++ found :: after)%list
        /\ posixpath.basename found = "depot_tools"
        /\ forall q, In q before -> posixpath.basename q <> "depot_tools"
  | None => forall q, In q paths -> posixpath.basename q <> "depot_tools"
  end.
Proof.
  induction paths as [|path rest IH]; cbn [first_depot_tools].
  - intros q [].
  - destruct (String.eqb_spec (posixpath.basename path) "depot_tools") as [Hb|Hb].
    + exists [], rest. repeat split; auto; intros q [].
    + destruct (first_depot_tools rest) as [found|].
      * destruct IH as (before & after & -> & Hfound & Hbefore).
        exists (path :: before), after. repeat split; auto.
        intros q [<-|Hq]; auto.
      * intros q [<-|Hq]; auto.
Qed.

(** X1. With [PATH] set, [find_depot_tools_in_path] returns the first
    colon-separated entry whose last component is [depot_tools], and
    [None] exactly when no entry has that last component. *)
Theorem find_depot_tools_in_path_first_match value :
  exists answer,
    find_depot_tools_in_path (Some value) = Ret answer
    /\ match answer with
       | Some found =>
           exists before after,
             PyStr.split ":" value = (before ++ found :: after)%list
             /\ posixpath.basename found = "depot_tools"
             /\ forall q, In q before -> posixpath.basename q <> "depot_tools"
       | None =>
           forall q, In q (PyStr.split ":" value) ->
                     posixpath.basename q <> "depot_tools"
       end.
Proof.
  eexists. split; [reflexivity|]. apply first_depot_tools_finds.
Qed.

Lemma find_depot_tools_in_path_first_match_witness :
  exists before after,
    find_depot_tools_in_path (Some "/usr/bin:/opt/depot_tools:/x/depot_tools")
      = Ret (Some "/opt/depot_tools")
    /\ ["/usr/bin"; "/opt/depot_tools"; "/x/depot_tools"]
       = (before ++ "/opt/depot_tools" :: after)%list
    /\ forall q, In q before -> posixpath.basename q <> "depot_tools".
Proof.
  destruct (find_depot_tools_in_path_first_match
              "/usr/bin:/opt/depot_tools:/x/depot_tools")
    as (answer & Hrun & Hanswer).
  inversion Hrun; subst answer.
  destruct Hanswer as (before & after & Hsplit & _ & Hbefore).
  exists before, after. repeat split; auto.
Defined.

Lemma rfind_last ch d :
  PyStr.rfind ch (d ++ String ch "") = Z.of_nat (String.length d).
Proof.
  induction d as [|a d IH].
  - cbn. rewrite Ascii.eqb_refl. reflexivity.
  - cbn [append PyStr.rfind String.length]. rewrite IH.
    destruct (Z.leb_spec 0 (Z.of_nat (String.length d))); lia.
Qed.

Lemma substring_none n s : substring n 0 s = "".
Proof.
  revert s. induction n as [|n IH]; intros [|a s]; cbn; auto.
Qed.

Lemma length_append_one d ch :
  String.length (d ++ String ch "") = S (String.length d).
Proof. induction d as [|a d IH]; cbn; [reflexivity|]. rewrite IH. reflexivity. Qed.

Lemma basename_trailing_slash d : posixpath.basename (d ++ "/") = "".
Proof.
  unfold posixpath.basename, PyStr.from. rewrite rfind_last, length_append_one.
  replace (Z.to_nat (Z.of_nat (String.length d) + 1)) with (S (String.length d))
    by lia.
  rewrite Nat.sub_diag. apply substring_none.
Qed.

(** X2. An entry of [PATH] written with a final slash is never the
    answer of [find_depot_tools_in_path], whatever directory it names. *)
Theorem find_depot_tools_in_path_misses_trailing_slash value found dir :
  find_depot_tools_in_path (Some value) = Ret (Some found) ->
  found <> dir ++ "/".
Proof.
  intros Hfind Heq. cbn in Hfind. inversion Hfind as [Hfirst].
  pose proof (first_depot_tools_finds (PyStr.split ":" value)) as H.
  rewrite Hfirst in H. destruct H as (_ & _ & _ & Hbase & _).
  rewrite Heq, basename_trailing_slash in Hbase. discriminate.
Qed.

Lemma find_depot_tools_in_path_misses_trailing_slash_witness :
  find_depot_tools_in_path (Some "/opt/depot_tools/:/home/me/depot_tools")
    = Ret (Some "/home/me/depot_tools")
  /\ "/home/me/depot_tools" <> "/opt/depot_tools" ++ "/".
Proof.
  split; [reflexivity|].
  apply (find_depot_tools_in_path_misses_trailing_slash
           "/opt/depot_tools/:/home/me/depot_tools"). reflexivity.
Defined.

(** ** [get_tracking_remote] *)

Lemma branch_detail_raises branch e :
  branch_detail branch = Raise e -> e = IndexError.
Proof.
  unfold branch_detail, item1. intro H.
  destruct (nth_error _ 1) as [after_name|]; [|congruence].
  destruct (nth_error _ 1) as [after_hash|]; congruence.
Qed.

Lemma scan_branches_confirms all todo remote :
  scan_branches all todo = Ret (Some remote) ->
  remote = "" \/ exists r, In r all /\ names_branch remote r = true.
Proof.
  induction todo as [|branch rest IH]; cbn [scan_branches]; [discriminate|].
  destruct (PyStr.startswith branch "*"); cbn [negb]; [|exact IH].
  destruct (branch_detail branch) as [detail|e]; [|discriminate].
  destruct (PyStr.startswith detail "["); [|intro H; left; congruence].
  destruct (filter (names_branch (bracket_remote detail)) all) as [|r rs] eqn:Hf;
    cbn [length Nat.eqb]; intro H; inversion H; subst; [left; reflexivity|].
  right. exists r.
  assert (Hin : In r (filter (names_branch (bracket_remote detail)) all))
    by (rewrite Hf; left; reflexivity).
  apply filter_In in Hin. exact Hin.
Qed.

(** X3. When the active branch's line shows a non-empty name in brackets
    and some line of the listing starts with that name, with or without
    [remotes/] in front, [get_tracking_remote] returns that name and
    announces it, whatever [git diff HEAD] would do. *)
Theorem get_tracking_remote_uses_confirmed_tracking
        env p listing before active after detail r_branch :
  GetCommandOutput env (cwd p) [GitExe env; "branch"; "-vv"; "-a"]
    = Ret listing ->
  PyStr.split PyStr.LF listing = (before ++ active :: after)%list ->
  (forall b, In b before -> PyStr.startswith b "*" = false) ->
  PyStr.startswith active "*" = true ->
  branch_detail active = Ret detail ->
  PyStr.startswith detail "[" = true ->
  In r_branch (PyStr.split PyStr.LF listing) ->
  names_branch (bracket_remote detail) r_branch = true ->
  bracket_remote detail <> "" ->
  get_tracking_remote env p
  = (Ret (bracket_remote detail),
     with_stdout p (stdout p ++ [BaseChosen (bracket_remote detail)])).
Proof.
  intros Hlist Hsplit Hbefore Hactive Hdetail Hbracket Hin Hnames Hne.
  unfold get_tracking_remote, bind at 1, run_command at 1.
  rewrite Hlist, Hsplit, (scan_branches_skips _ _ _ _ Hbefore Hactive).
  cbn [scan_branches]. rewrite Hactive. cbn [negb]. rewrite Hdetail, Hbracket.
  rewrite Hsplit in Hin.
  assert (Hf : In r_branch (filter (names_branch (bracket_remote detail))
                                   (before ++ active :: after)))
    by (apply filter_In; auto).
  destruct (filter (names_branch (bracket_remote detail))
                   (before ++ active :: after)) as [|x xs]; [destruct Hf|].
  cbn [length Nat.eqb].
  destruct (String.eqb_spec (bracket_remote detail) "") as [|_]; [contradiction|].
  reflexivity.
Qed.

Lemma get_tracking_remote_uses_confirmed_tracking_witness :
  names_branch "origin/master" "  remotes/origin/master 0a1b2c3 Older" = true
  /\ get_tracking_remote Demo.tracked_world Demo.start
     = (Ret "origin/master",
        with_stdout Demo.start [BaseChosen "origin/master"]).
Proof.
  split; [reflexivity|].
  apply (get_tracking_remote_uses_confirmed_tracking
           Demo.tracked_world Demo.start Demo.tracked_listing
           ["  topic  5d6e7f8 Work"]
           "* master 1a2b3c4 [origin/master: ahead 1] Fix"
           ["  remotes/origin/master 0a1b2c3 Older"; ""]
           "[origin/master: ahead 1] Fix"
           "  remotes/origin/master 0a1b2c3 Older").
  - reflexivity.
  - reflexivity.
  - intros b [<-|[]]. reflexivity.
  - reflexivity.
  - reflexivity.
  - reflexivity.
  - vm_compute. tauto.
  - reflexivity.
  - discriminate.
Defined.

(** X4. Whenever [get_tracking_remote] returns, the base is not the empty
    string: it is [HEAD], [HEAD~] or a name that some line of the branch
    listing starts with; and the only effect is the one line announcing
    that base. *)
Theorem get_tracking_remote_base_is_never_empty env p base p' :
  get_tracking_remote env p = (Ret base, p') ->
  base <> ""
  /\ p' = with_stdout p (stdout p ++ [BaseChosen base])
  /\ (base = "HEAD" \/ base = "HEAD~"
      \/ exists listing r,
           GetCommandOutput env (cwd p) [GitExe env; "branch"; "-vv"; "-a"]
             = Ret listing
           /\ In r (PyStr.split PyStr.LF listing)
           /\ names_branch base r = true).
Proof.
  unfold get_tracking_remote, bind at 1, run_command at 1.
  destruct (GetCommandOutput env (cwd p) [GitExe env; "branch"; "-vv"; "-a"])
    as [listing|e] eqn:Hlist; [|discriminate].
  destruct (scan_branches (PyStr.split PyStr.LF listing)
                          (PyStr.split PyStr.LF listing))
    as [[remote|]|e] eqn:Hscan; try discriminate.
  destruct (String.eqb_spec remote "") as [->|Hne].
  - unfold bind, repo_is_dirty, bind, run_command.
    destruct (GetCommandOutput env (cwd p) [GitExe env; "diff"; "HEAD"])
      as [head_diff|e]; [|discriminate].
    unfold ret, print. intro H.
    destruct (negb (String.eqb (PyStr.strip head_diff) ""));
      inversion H; subst; repeat split; auto; discriminate.
  - unfold bind, ret, print. intro H. inversion H; subst.
    repeat split; auto.
    right; right. exists listing.
    destruct (scan_branches_confirms _ _ _ Hscan) as [|(r & Hin & Hr)];
      [contradiction|].
    exists r. auto.
Qed.

Lemma get_tracking_remote_base_is_never_empty_witness :
  get_tracking_remote Demo.tracked_world Demo.start
    = (Ret "origin/master", with_stdout Demo.start [BaseChosen "origin/master"])
  /\ "origin/master" <> "".
Proof.
  split; [reflexivity|].
  apply (get_tracking_remote_base_is_never_empty Demo.tracked_world Demo.start
           "origin/master" (with_stdout Demo.start [BaseChosen "origin/master"])).
  reflexivity.
Defined.

Lemma scan_branches_no_star all todo :
  (forall b, In b todo -> PyStr.startswith b "*" = false) ->
  scan_branches all todo = Ret None.
Proof.
  induction todo as [|b rest IH]; intro H; [reflexivity|].
  cbn [scan_branches]. rewrite (H b (or_introl eq_refl)). cbn [negb].
  apply IH. intros b' Hb'. apply H. right. exact Hb'.
Qed.

(** X5. When no line of the branch listing starts with a star,
    [get_tracking_remote] fails with [UnboundLocalError] and prints
    nothing; it does not fall back to [HEAD] or [HEAD~]. *)
Theorem get_tracking_remote_needs_an_active_branch env p listing :
  GetCommandOutput env (cwd p) [GitExe env; "branch"; "-vv"; "-a"]
    = Ret listing ->
  (forall b, In b (PyStr.split PyStr.LF listing) ->
             PyStr.startswith b "*" = false) ->
  get_tracking_remote env p = (Raise UnboundLocalError, p).
Proof.
  intros Hlist Hnone.
  unfold get_tracking_remote, bind at 1, run_command at 1.
  rewrite Hlist, (scan_branches_no_star _ _ Hnone). reflexivity.
Qed.

Lemma get_tracking_remote_needs_an_active_branch_witness :
  PyStr.startswith "  master 1a2b3c4 Fix the build" "*" = false
  /\ get_tracking_remote Demo.no_branch_world Demo.start
     = (Raise UnboundLocalError, Demo.start).
Proof.
  split; [reflexivity|].
  apply (get_tracking_remote_needs_an_active_branch Demo.no_branch_world
           Demo.start (Demo.lines ["  master 1a2b3c4 Fix the build"])).
  - reflexivity.
  - intros b [<-|[<-|[]]]; reflexivity.
Defined.

(** X6. When the first starred line of the listing cannot be split twice
    at a space (no space follows the branch name, or none follows the
    hash), [get_tracking_remote] fails with [IndexError], the only error
    that parsing the line can raise, and prints nothing. *)
Theorem get_tracking_remote_rejects_short_line
        env p listing before active after e :
  GetCommandOutput env (cwd p) [GitExe env; "branch"; "-vv"; "-a"]
    = Ret listing ->
  PyStr.split PyStr.LF listing = (before ++ active :: after)%list ->
  (forall b, In b before -> PyStr.startswith b "*" = false) ->
  PyStr.startswith active "*" = true ->
  branch_detail active = Raise e ->
  e = IndexError
  /\ get_tracking_remote env p = (Raise IndexError, p).
Proof.
  intros Hlist Hsplit Hbefore Hactive Hdetail.
  pose proof (branch_detail_raises _ _ Hdetail) as ->.
  split; [reflexivity|].
  unfold get_tracking_remote, bind at 1, run_command at 1.
  rewrite Hlist, Hsplit, (scan_branches_skips _ _ _ _ Hbefore Hactive).
  cbn [scan_branches]. rewrite Hactive. cbn [negb]. rewrite Hdetail.
  reflexivity.
Qed.

Lemma get_tracking_remote_rejects_short_line_witness :
  branch_detail "* master" = Raise IndexError
  /\ get_tracking_remote Demo.short_line_world Demo.start
     = (Raise IndexError, Demo.start).
Proof.
  split; [reflexivity|].
  apply (get_tracking_remote_rejects_short_line Demo.short_line_world
           Demo.start (Demo.lines ["* master"]) [] "* master" [""] IndexError).
  - reflexivity.
  - reflexivity.
  - intros b [].
  - reflexivity.
  - reflexivity.
Defined.

(** ** [get_change_file_list] *)

Lemma lstrip_blank s :
  (forall c, In c (list_ascii_of_string s) -> PyStr.isspace c = true) ->
  PyStr.lstrip_by PyStr.isspace s = "".
Proof.
  induction s as [|a s IH]; intro H; [reflexivity|].
  cbn [PyStr.lstrip_by]. rewrite (H a (or_introl eq_refl)).
  apply IH. intros c Hc. apply H. right. exact Hc.
Qed.

(** X7. A diff output made of white space only (blanks, tabs, line ends)
    is treated like an empty one: the changed-file list is the single
    empty path, which goes to the style linter's group. *)
Theorem blank_diff_yields_empty_path env base p output :
  GetCommandOutput env (cwd p) [GitExe env; "diff"; "--name-only"; base]
    = Ret output ->
  (forall c, In c (list_ascii_of_string output) -> PyStr.isspace c = true) ->
  changes_of output = [""]
  /\ get_change_file_list env base p = (Ret ([], [], [""]), p).
Proof.
  intros Hdiff Hblank.
  assert (Hchanges : changes_of output = [""]).
  { unfold changes_of, PyStr.strip. rewrite (lstrip_blank _ Hblank). reflexivity. }
  split; [exact Hchanges|].
  rewrite (get_change_file_list_runs env base p output Hdiff), Hchanges.
  unfold with_stdout. cbn. rewrite app_nil_r. destruct p; reflexivity.
Qed.

Lemma blank_diff_yields_empty_path_witness :
  GetCommandOutput Demo.blank_diff_world "/repo"
    ["git"; "diff"; "--name-only"; "HEAD~"] = Ret (" " ++ NL ++ NL)
  /\ get_change_file_list Demo.blank_diff_world "HEAD~" Demo.start
     = (Ret ([], [], [""]), Demo.start).
Proof.
  split; [reflexivity|].
  apply (blank_diff_yields_empty_path Demo.blank_diff_world "HEAD~" Demo.start
           (" " ++ NL ++ NL) eq_refl).
  intros c [<-|[<-|[<-|[]]]]; reflexivity.
Defined.

(** ** [do_cpp_lint] and [MyError] *)

Lemma cpp_loop_filtered env white_list black_list filenames : forall q,
  (forall f, In f filenames ->
     re_match env white_list f = false \/ re_match env black_list f = true) ->
  for_each filenames (cpp_file env white_list black_list) tt q
  = (Ret tt,
     with_stdout q (stdout q ++ map (filter_line env white_list) filenames)).
Proof.
  induction filenames as [|f filenames IH]; intros q Hall.
  - cbn. rewrite with_stdout_nil. reflexivity.
  - cbn [for_each map]. unfold bind.
    assert (Hturn : cpp_file env white_list black_list f tt q
                    = (Ret tt, with_stdout q (stdout q ++ [filter_line env white_list f]))).
    { unfold cpp_file, filter_line.
      destruct (Hall f (or_introl eq_refl)) as [Hw|Hb].
      - rewrite Hw. reflexivity.
      - destruct (re_match env white_list f); [rewrite Hb|]; reflexivity. }
    rewrite Hturn, IH.
    + rewrite with_stdout_twice. reflexivity.
    + intros f' Hf'. apply Hall. right. exact Hf'.
Qed.

(** X8. With an empty changeset and its modules imported, [do_cpp_lint]
    prints its banner and the empty-changeset notice and returns 0,
    whatever cpplint's error counter holds and whatever the pass-through
    arguments are; cpplint is not called. *)
Theorem do_cpp_lint_empty_changeset env args p :
  import_lint_modules env (negb (import_cpplint env)) = true ->
  do_cpp_lint env [] args p
  = (Ret 0, with_stdout p (stdout p ++ [CppBanner; EmptyChangeset])).
Proof.
  intro Himp. unfold do_cpp_lint. rewrite Himp. cbn [negb length Nat.eqb].
  unfold bind, print, ret, with_stdout. cbn [cwd stdout stderr cpplint_errors].
  rewrite <- app_assoc. reflexivity.
Qed.

Lemma do_cpp_lint_empty_changeset_witness :
  do_cpp_lint Demo.example_world [] ["--verbose=3"] (mkProc "/repo" [] [] 5)
  = (Ret 0, mkProc "/repo" [CppBanner; EmptyChangeset] [] 5).
Proof.
  apply (do_cpp_lint_empty_changeset Demo.example_world ["--verbose=3"]
           (mkProc "/repo" [] [] 5)).
  reflexivity.
Defined.

(** X9. When every file name cpplint's argument parser hands back fails
    the allow pattern or passes the deny pattern, no file is processed:
    each gets its "Skipping file" or "Ignoring file" line, and the count
    returned is cpplint's counter as the parser left it. *)
Theorem do_cpp_lint_processes_no_filtered_file
        env changeset args p filenames q :
  import_lint_modules env (negb (import_cpplint env)) = true ->
  changeset <> [] ->
  cpplint_ParseArguments env (args ++ changeset)%list
    (with_stdout p (stdout p ++ [CppBanner])) = (Ret filenames, q) ->
  let white_list := setting_or (GetCodeReviewSetting env "LINT_REGEX")
                               (DEFAULT_LINT_REGEX env) in
  let black_list := setting_or (GetCodeReviewSetting env "LINT_IGNORE_REGEX")
                               (DEFAULT_LINT_IGNORE_REGEX env) in
  (forall f, In f filenames ->
     re_match env white_list f = false \/ re_match env black_list f = true) ->
  do_cpp_lint env changeset args p
  = (Ret (cpplint_errors q),
     with_stdout q (stdout q ++ map (filter_line env white_list) filenames
                             ++ [CppErrors (cpplint_errors q)])).
Proof.
  intros Himp Hne Hparse white_list black_list Hall.
  unfold do_cpp_lint. rewrite Himp. cbn [negb].
  destruct changeset as [|c changeset]; [contradiction|].
  cbn [length Nat.eqb].
  unfold bind at 1. unfold print at 1.
  change (mkProc (cwd p) (stdout p ++ [CppBanner]) (stderr p) (cpplint_errors p))
    with (with_stdout p (stdout p ++ [CppBanner])).
  unfold bind at 1. rewrite Hparse.
  unfold bind at 1.
  fold white_list. fold black_list.
  rewrite (cpp_loop_filtered env white_list black_list filenames q Hall).
  unfold bind, get_error_count, print, with_stdout.
  cbn [cwd stdout stderr cpplint_errors].
  rewrite <- app_assoc. reflexivity.
Qed.

Lemma do_cpp_lint_processes_no_filtered_file_witness :
  re_match Demo.nothing_allowed_world "allow" "c.h" = false
  /\ do_cpp_lint Demo.nothing_allowed_world ["c.h"] [] (mkProc "/repo" [] [] 3)
     = (Ret 3,
        mkProc "/repo" [CppBanner; SkippingFile "c.h"; CppErrors 3] [] 3).
Proof.
  split; [reflexivity|].
  apply (do_cpp_lint_processes_no_filtered_file Demo.nothing_allowed_world
           ["c.h"] [] (mkProc "/repo" [] [] 3) ["c.h"]
           (mkProc "/repo" [CppBanner] [] 3)).
  - reflexivity.
  - discriminate.
  - reflexivity.
  - intros f [<-|[]]. left. reflexivity.
Defined.

(** X10. For a file named [...messages.h] (and not [...resource.h]),
    [MyError] suppresses exactly the [build/header_guard] report at line
    0, which it writes as an ignored error; a report of another category
    or at another line goes to cpplint's own handler. *)
Theorem MyError_messages_h_suppresses_only_header_guard env d p :
  PyStr.endswith (d_filename d) "resource.h" = false ->
  PyStr.endswith (d_filename d) "messages.h" = true ->
  (d_linenum d = 0 /\ d_category d = "build/header_guard" ->
   MyError env d p = (Ret tt, with_stdout p (stdout p ++ [IgnoredError d])))
  /\ (d_linenum d <> 0 \/ d_category d <> "build/header_guard" ->
      MyError env d p = cpplint_Error env d p).
Proof.
  intros Hres Hmsg. rewrite (MyError_messages_h env d p Hres Hmsg). split.
  - intros [-> ->]. reflexivity.
  - intros [Hline|Hcat].
    + apply Nat.eqb_neq in Hline. rewrite Hline. reflexivity.
    + apply String.eqb_neq in Hcat. rewrite Hcat, andb_false_r. reflexivity.
Qed.

Lemma MyError_messages_h_suppresses_only_header_guard_witness :
  let guard := mkDiag "ipc/messages.h" 0 "build/header_guard" 5 "No guard" in
  let tab := mkDiag "ipc/messages.h" 0 "whitespace/tab" 1 "Tab found" in
  MyError Demo.example_world guard Demo.start
    = (Ret tt, with_stdout Demo.start [IgnoredError guard])
  /\ MyError Demo.example_world tab Demo.start
     = (Ret tt, mkProc "/repo" [] [] 1).
Proof.
  cbv zeta. split.
  - apply (MyError_messages_h_suppresses_only_header_guard Demo.example_world
             (mkDiag "ipc/messages.h" 0 "build/header_guard" 5 "No guard")
             Demo.start eq_refl eq_refl).
    split; reflexivity.
  - rewrite (proj2 (MyError_messages_h_suppresses_only_header_guard
                      Demo.example_world
                      (mkDiag "ipc/messages.h" 0 "whitespace/tab" 1 "Tab found")
                      Demo.start eq_refl eq_refl)).
    + reflexivity.
    + right. discriminate.
Defined.

(** ** [do_lint] without cpplint *)

(** X11. When cpplint cannot be imported, [do_lint] fails with
    [ImportError] right after the changes are listed: the message goes to
    standard error, and neither the scripting-language nor the
    markup-script checker is started, however many such files changed. *)
Theorem do_lint_aborts_without_cpplint
        env base args p b p1 changes_py changes_js changes_others p2 :
  resolve_base env base p = (Ret b, p1) ->
  get_change_file_list env b p1
    = (Ret (changes_py, changes_js, changes_others), p2) ->
  import_lint_modules env (negb (import_cpplint env)) = false ->
  do_lint env base args p
  = (Raise ImportError,
     mkProc (cwd p2) (stdout p2) (stderr p2 ++ [CantFindCpplint])
            (cpplint_errors p2)).
Proof.
  intros Hbase Hchanges Himp.
  unfold do_lint. fold (resolve_base env base).
  unfold bind at 1. rewrite Hbase.
  unfold bind at 1. rewrite Hchanges.
  unfold bind at 1. unfold do_cpp_lint. rewrite Himp. reflexivity.
Qed.

Lemma do_lint_aborts_without_cpplint_witness :
  get_change_file_list Demo.no_cpplint_world "HEAD~"
    (with_stdout Demo.start [BaseChosen "HEAD~"])
  = (Ret (["a.py"], ["b.js"], ["c.h"]),
     with_stdout Demo.start [BaseChosen "HEAD~"; SkipCommonDir])
  /\ do_lint Demo.no_cpplint_world None [] Demo.start
     = (Raise ImportError,
        mkProc "/repo" [BaseChosen "HEAD~"; SkipCommonDir] [CantFindCpplint] 0).
Proof.
  split; [reflexivity|].
  apply (do_lint_aborts_without_cpplint Demo.no_cpplint_world None []
           Demo.start "HEAD~" (with_stdout Demo.start [BaseChosen "HEAD~"])
           ["a.py"] ["b.js"] ["c.h"]
           (with_stdout Demo.start [BaseChosen "HEAD~"; SkipCommonDir])).
  - reflexivity.
  - reflexivity.
  - reflexivity.
Defined.

(** ** [do_py_lint] and [do_js_lint] *)

(** X12. For a file of the changeset that is on disk, one turn of the
    loop of [do_js_lint] raises the count by one exactly when the
    checker's output is empty after [strip()] or the invocation raised;
    output that still has text after [strip()] is printed, stripped,
    after the "jslint <file>" line and is not counted.  The checker is
    called with the five fixed arguments before the file name. *)
Theorem do_js_lint_counts_blank_or_raised env cmd file count p :
  path_exists env (cwd p) file = true ->
  exists count' p',
    js_file env cmd file count p = (Ret count', p')
    /\ (count' = count + 1 <->
          (exists raw, invocation env (cmd ++ js_args) (cwd p) file = Ret raw
                       /\ PyStr.strip raw = "")
          \/ exists e, invocation env (cmd ++ js_args) (cwd p) file = Raise e)
    /\ (count' = count \/ count' = count + 1)
    /\ (forall raw,
          invocation env (cmd ++ js_args) (cwd p) file = Ret raw ->
          PyStr.strip raw <> "" ->
          count' = count
          /\ stdout p' = (stdout p ++ [Running "jslint" file;
                                       CheckerOutput (PyStr.strip raw)])%list)
    /\ (forall e,
          invocation env (cmd ++ js_args) (cwd p) file = Raise e ->
          stdout p' = (stdout p ++ [Running "jslint" file; ExceptionText e])%list).
Proof.
  intro Hdisk. do 2 eexists. split; [apply js_file_turn|].
  unfold counted, file_events. rewrite Hdisk. cbn [andb].
  destruct (invocation env (cmd ++ js_args) (cwd p) file) as [raw|e].
  - destruct (String.eqb_spec (PyStr.strip raw) "") as [Hblank|Htext].
    + split; [|split; [|split]].
      * split; [|reflexivity]. intros _. left. exists raw. auto.
      * right. reflexivity.
      * intros raw' Hraw' Htext'. inversion Hraw'; subst. contradiction.
      * intros e He. discriminate.
    + split; [|split; [|split]].
      * split; [lia|].
        intros [(raw' & Hraw' & Hblank)|(e & He)]; [|discriminate].
        inversion Hraw'; subst. contradiction.
      * left. lia.
      * intros raw' Hraw' _. inversion Hraw'; subst.
        split; [lia|reflexivity].
      * intros e He. discriminate.
  - split; [|split; [|split]].
    + split; [|reflexivity]. intros _. right. exists e. reflexivity.
    + right. reflexivity.
    + intros raw Hraw. discriminate.
    + intros e' He'. inversion He'; subst. reflexivity.
Qed.

Lemma do_js_lint_counts_blank_or_raised_witness :
  path_exists Demo.blank_world "/repo" "b.js" = true
  /\ invocation Demo.blank_world (["gjslint"] ++ js_args) "/repo" "b.js" = Ret NL
  /\ exists p',
       js_file Demo.blank_world ["gjslint"] "b.js" 0 Demo.start = (Ret 1, p').
Proof.
  split; [reflexivity|]. split; [reflexivity|].
  destruct (do_js_lint_counts_blank_or_raised Demo.blank_world ["gjslint"]
              "b.js" 0 Demo.start eq_refl)
    as (count' & p' & Hrun & Hcount & _).
  exists p'. rewrite Hrun. f_equal. f_equal.
  apply (proj2 Hcount). left. exists NL. split; reflexivity.
Defined.

Lemma filter_length_mono {A} (f g : A -> bool) xs :
  (forall x, f x = true -> g x = true) ->
  length (filter f xs) <= length (filter g xs).
Proof.
  intro Himp. induction xs as [|x xs IH]; [reflexivity|].
  cbn [filter]. destruct (f x) eqn:Hf.
  - rewrite (Himp x Hf). cbn [length]. lia.
  - destruct (g x); cbn [length]; lia.
Qed.

(** X13. [do_js_lint] never prints the import hint, not even when a
    checker invocation raised with a line starting [F0401:]; such a
    failure is counted like any other. *)
Theorem do_js_lint_never_prints_the_hint env changeset p :
  exists n p' printed,
    do_js_lint env changeset p = (Ret n, p')
    /\ stdout p' = (stdout p ++ printed)%list
    /\ filter is_hint printed = []
    /\ length (filter (marked env (jslint_cmd env) (cwd p)) changeset) <= n.
Proof.
  pose proof (do_js_lint_runs env changeset p) as Hrun. cbv zeta in Hrun.
  exists (length (filter (counted env (jslint_cmd env) (cwd p)) changeset)).
  eexists. eexists. split; [exact Hrun|]. split; [reflexivity|]. split.
  - cbn [filter is_hint]. rewrite filter_app, file_events_no_hint. reflexivity.
  - apply filter_length_mono. intros f. unfold marked, counted.
    destruct (path_exists env (cwd p) f); cbn [andb]; [|discriminate].
    destruct (invocation env (jslint_cmd env) (cwd p) f);
      [discriminate|reflexivity].
Qed.

Example js_marker_failure_run :
  do_js_lint Demo.failing_world ["a.js"] Demo.start
  = (Ret 1,
     with_stdout Demo.start
       [ JsBanner; Running "jslint" "a.js"; ExceptionText Demo.import_failure;
         ToolErrors "jslint" 1 ]).
Proof. reflexivity. Qed.

(** X14. The counts of the two per-file dispatchers add up over a
    changeset cut in two: running on [first ++ second] returns the sum of
    what the runs on [first] and on [second] return from the same
    state. *)
Theorem dispatcher_counts_add_up env first second p :
  exists py1 py2 js1 js2,
    fst (do_py_lint env first p) = Ret py1
    /\ fst (do_py_lint env second p) = Ret py2
    /\ fst (do_py_lint env (first ++ second) p) = Ret (py1 + py2)
    /\ fst (do_js_lint env first p) = Ret js1
    /\ fst (do_js_lint env second p) = Ret js2
    /\ fst (do_js_lint env (first ++ second) p) = Ret (js1 + js2).
Proof.
  pose proof (do_py_lint_runs env) as Hpy. pose proof (do_js_lint_runs env) as Hjs.
  cbv zeta in Hpy, Hjs.
  do 4 eexists. rewrite !Hpy, !Hjs. cbn [fst].
  rewrite !filter_app, !length_app. repeat split.
Qed.







Lemma rfind_lower_bound ch s : (-1 <= PyStr.rfind ch s)%Z.
Proof.
  induction s as [|a s IH]; cbn [PyStr.rfind]; [lia|].
  destruct (Z.leb_spec 0 (PyStr.rfind ch s)); [lia|].
  destruct (Ascii.eqb a ch); lia.
Qed.

Lemma substring_whole s : substring 0 (String.length s) s = s.
Proof. induction s as [|a s IH]; cbn; [reflexivity|]. rewrite IH. reflexivity. Qed.

Lemma from_zero s : PyStr.from 0 s = s.
Proof. unfold PyStr.from. rewrite Nat.sub_0_r. apply substring_whole. Qed.

Lemma from_succ n a s : PyStr.from (S n) (String a s) = PyStr.from n s.
Proof. reflexivity. Qed.

Lemma rfind_after_last ch p :
  PyStr.rfind ch (PyStr.from (Z.to_nat (PyStr.rfind ch p + 1)) p) = (-1)%Z.
Proof.
  induction p as [|a p IH]; [reflexivity|].
  pose proof (rfind_lower_bound ch p) as Hlow.
  cbn [PyStr.rfind].
  destruct (Z.leb_spec 0 (PyStr.rfind ch p)) as [Hfound|Hnone].
  - replace (Z.to_nat (PyStr.rfind ch p + 1 + 1))
      with (S (Z.to_nat (PyStr.rfind ch p + 1))) by lia.
    rewrite from_succ. exact IH.
  - assert (Hr : PyStr.rfind ch p = (-1)%Z) by lia.
    destruct (Ascii.eqb a ch) eqn:Ha.
    + change (Z.to_nat (0 + 1)) with 1. rewrite from_succ, from_zero. exact Hr.
    + change (Z.to_nat (-1 + 1)) with 0. rewrite from_zero.
      cbn [PyStr.rfind]. rewrite Hr, Ha. reflexivity.
Qed.

Lemma invocation_where env cmd here file :
  invocation env cmd here file
  = GetCommandOutput env (invocation_dir here file)
      (cmd ++ [posixpath.basename (posixpath.abspath here file)])%list.
Proof. reflexivity. Qed.

(** X16. A turn of either loop consults the environment only about the
    file's presence and about one command: the checker run in the
    directory part of the file's absolute path on the last component of
    that path, which contains no slash.  Two environments that agree on
    these give the same turn, whatever they answer elsewhere. *)
Theorem checker_gets_bare_file_name env1 env2 cmd file vars count p :
  let dir := invocation_dir (cwd p) file in
  let name := posixpath.basename (posixpath.abspath (cwd p) file) in
  path_exists env1 (cwd p) file = path_exists env2 (cwd p) file ->
  (GetCommandOutput env1 dir (cmd ++ [name])%list
   = GetCommandOutput env2 dir (cmd ++ [name])%list ->
   py_file env1 cmd file vars p = py_file env2 cmd file vars p)
  /\ (GetCommandOutput env1 dir (cmd ++ js_args ++ [name])%list
      = GetCommandOutput env2 dir (cmd ++ js_args ++ [name])%list ->
      js_file env1 cmd file count p = js_file env2 cmd file count p)
  /\ PyStr.rfind "/" name = (-1)%Z.
Proof.
  intros dir name Hdisk. split; [|split].
  - intro Hsame. destruct vars as [flag n]. rewrite !py_file_turn.
    unfold marked, counted, file_events. rewrite !invocation_where.
    fold dir. fold name. rewrite Hdisk, Hsame. reflexivity.
  - intro Hsame. rewrite !js_file_turn.
    unfold counted, file_events. rewrite !invocation_where.
    fold dir. fold name. rewrite <- !app_assoc. rewrite Hdisk, Hsame.
    reflexivity.
  - apply rfind_after_last.
Qed.

Lemma checker_gets_bare_file_name_witness :
  invocation_dir "/repo" "sub/a.py" = "/repo/sub"
  /\ posixpath.basename (posixpath.abspath "/repo" "sub/a.py") = "a.py"
  /\ GetCommandOutput Demo.picky_world "/repo" ["pylint"; "sub/a.py"]
     <> GetCommandOutput Demo.example_world "/repo" ["pylint"; "sub/a.py"]
  /\ py_file Demo.picky_world ["pylint"] "sub/a.py" (false, 0) Demo.start
     = py_file Demo.example_world ["pylint"] "sub/a.py" (false, 0) Demo.start.
Proof.
  split; [reflexivity|]. split; [reflexivity|]. split; [discriminate|].
  apply (checker_gets_bare_file_name Demo.picky_world Demo.example_world
           ["pylint"] "sub/a.py" (false, 0) 0 Demo.start eq_refl).
  reflexivity.
Defined.

Example picky_run :
  py_file Demo.picky_world ["pylint"] "sub/a.py" (false, 0) Demo.start
  = (Ret (false, 0),
     with_stdout Demo.start
       [Running "pylint" "sub/a.py";
        CheckerOutput "Your code has been rated at 10.00/10"]).
Proof. reflexivity. Qed.

(** ** [do_lint] when the diff fails *)

(** X17. When the diff command fails, for instance on a base that names
    no revision, [do_lint] fails with the command's exception as soon as
    the base is resolved: nothing is classified and no linter is
    started. *)
Theorem do_lint_propagates_diff_failure env base args p b p1 e :
  resolve_base env base p = (Ret b, p1) ->
  GetCommandOutput env (cwd p1) [GitExe env; "diff"; "--name-only"; b]
    = Raise e ->
  get_change_file_list env b p1 = (Raise e, p1)
  /\ do_lint env base args p = (Raise e, p1)
  /\ (parse_args env = (base, args) -> main env p = (Raise e, p1)).
Proof.
  intros Hbase Hdiff.
  assert (Hlist : get_change_file_list env b p1 = (Raise e, p1)).
  { unfold get_change_file_list, bind, run_command. rewrite Hdiff. reflexivity. }
  assert (Hlint : do_lint env base args p = (Raise e, p1)).
  { unfold do_lint. fold (resolve_base env base).
    unfold bind at 1. rewrite Hbase.
    unfold bind at 1. rewrite Hlist. reflexivity. }
  repeat split; auto.
  intro Hargs. unfold main. rewrite Hargs. exact Hlint.
Qed.

Lemma do_lint_propagates_diff_failure_witness :
  resolve_base Demo.bad_base_world (Some "nope") Demo.start
    = (Ret "nope", Demo.start)
  /\ main Demo.bad_base_world Demo.start
     = (Raise Demo.git_failure, Demo.start).
Proof.
  split; [reflexivity|].
  destruct (do_lint_propagates_diff_failure Demo.bad_base_world (Some "nope")
              [] Demo.start "nope" Demo.start Demo.git_failure
              eq_refl eq_refl) as (_ & _ & Hmain).
  apply Hmain. reflexivity.
Defined.
